(** * A persistent execution kernel: [kernel_runner.py]

    The kernel reads one JSON request per line from standard input,
    runs the request's [code] against one long-lived namespace with the
    output streams redirected into buffers, and answers with one JSON
    line.  This development embeds the two functions of the script,
    [execute_code] and [main], over an explicit model of the interpreter
    services they call (the [sys] stream bindings, [io.StringIO],
    [contextlib.redirect_stdout], [compile], [exec], [json]).

    Executed code acts on the process through the namespace it runs in
    and through what it writes to [sys.stdout] and [sys.stderr]; it ends
    by returning, by raising, or not at all.  Code that reaches the
    process some other way (a write to a file descriptor, a new binding
    for [sys.stdout], a read of standard input) is outside the model, and
    so are failures of the real streams themselves. *)

From Stdlib Require Import ZArith Ascii String.
From stdpp Require Import base strings list gmap pretty.

Set Warnings "-register-all".

(** ** Text *)

Definition nl : string := String "010"%char EmptyString.
Definition dquote : string := String "034"%char EmptyString.
Definition quoted (s : string) : string := dquote +:+ s +:+ dquote.

Fixpoint starts_with (word s : string) : bool :=
  match word, s with
  | EmptyString, _ => true
  | String a word', String b s' => bool_decide (a = b) && starts_with word' s'
  | String _ _, EmptyString => false
  end.

(** [needle in hay] *)
Fixpoint contains (needle hay : string) : bool :=
  starts_with needle hay ||
  match hay with
  | EmptyString => false
  | String _ rest => contains needle rest
  end.

(** ** Objects that [json.loads] returns *)

Inductive PyObj :=
  | PNone
  | PBool (b : bool)
  | PInt (n : Z)
  | PFloat (literal : string)
  | PStr (s : string)
  | PList (items : list PyObj)
  | PDict (items : list (string * PyObj)).

(** [type(o).__name__] *)
Definition type_name (o : PyObj) : string :=
  match o with
  | PNone => "NoneType"
  | PBool _ => "bool"
  | PInt _ => "int"
  | PFloat _ => "float"
  | PStr _ => "str"
  | PList _ => "list"
  | PDict _ => "dict"
  end.

(** The decoder builds a dict by inserting the pairs from left to right,
    so the last pair of a repeated key is the one that stays. *)
Fixpoint dict_lookup (items : list (string * PyObj)) (key : string) : option PyObj :=
  match items with
  | [] => None
  | (k, v) :: rest =>
      match dict_lookup rest key with
      | Some v' => Some v'
      | None => if decide (k = key) then Some v else None
      end
  end.

(** ** Responses and their encoding *)

Record Response := mkResponse {
  stdout : string;
  stderr : string;
  error : option string       (* [None] is JSON [null] *)
}.

Definition hex_digit (n : N) : ascii :=
  ascii_of_N (if (n <? 10)%N then 48 + n else 87 + n).

(** One character of a string under [json.dumps] with its default
    [ensure_ascii=True]. *)
Definition escape_char (c : ascii) : string :=
  let n := N_of_ascii c in
  if (n =? 34)%N then "\" +:+ dquote
  else if (n =? 92)%N then "\\"
  else if (n =? 10)%N then "\n"
  else if (n =? 13)%N then "\r"
  else if (n =? 9)%N then "\t"
  else if (n =? 8)%N then "\b"
  else if (n =? 12)%N then "\f"
  else if ((32 <=? n) && (n <=? 126))%N then String c EmptyString
  else "\u00" +:+ String (hex_digit (n / 16)) (String (hex_digit (n mod 16)) EmptyString).

Fixpoint escape_string (s : string) : string :=
  match s with
  | EmptyString => EmptyString
  | String c rest => escape_char c +:+ escape_string rest
  end.

Definition encode_str (s : string) : string := quoted (escape_string s).

(** [json.dumps] of the dict that [execute_code] returns. *)
Definition json_dumps (r : Response) : string :=
  "{" +:+ quoted "stdout" +:+ ": " +:+ encode_str (stdout r) +:+ ", " +:+
  quoted "stderr" +:+ ": " +:+ encode_str (stderr r) +:+ ", " +:+
  quoted "error" +:+ ": " +:+
  match error r with None => "null" | Some text => encode_str text end +:+ "}".

(** ** Standard input as the lines [readline] returns *)

Fixpoint split_lines_from (current : string) (input : string) : list string :=
  match input with
  | EmptyString => if decide (current = "") then [] else [current]
  | String c rest =>
      if decide (c = "010"%char)
      then (current +:+ nl) :: split_lines_from "" rest
      else split_lines_from (current +:+ String c EmptyString) rest
  end.

Definition split_lines (input : string) : list string := split_lines_from "" input.

(** ** Exceptions *)

(** An exception instance: the names of the classes on the method
    resolution order of its type, [str(e)], and the text that
    [traceback.format_exc()] returns while it is being handled. *)
Record PyExc := mkExc {
  exc_mro : list string;
  exc_str : string;
  exc_traceback : string
}.

(** An [except cls] clause matches when [cls] is on the MRO. *)
Definition isinstance (e : PyExc) (cls : string) : bool :=
  bool_decide (cls ∈ exc_mro e).

Definition format_exc (e : PyExc) : string := exc_traceback e.

Definition traceback_text (frames name message : string) : string :=
  "Traceback (most recent call last):" +:+ nl +:+ frames +:+ name +:+
  (if decide (message = "") then "" else ": " +:+ message) +:+ nl.

Definition AttributeError (message : string) : PyExc :=
  mkExc ["AttributeError"; "Exception"; "BaseException"; "object"] message
        (traceback_text "" "AttributeError" message).

Definition TypeError (message : string) : PyExc :=
  mkExc ["TypeError"; "Exception"; "BaseException"; "object"] message
        (traceback_text "" "TypeError" message).

(** ** What running a code object does *)

Inductive Outcome :=
  | Returned               (* ran to the end *)
  | Raised (e : PyExc)     (* stopped by an exception *)
  | Diverged.              (* never comes back *)

(** The effect of evaluating a code object in a namespace: the namespace
    when evaluation stopped, the text it wrote to [sys.stdout] and to
    [sys.stderr] up to that point, and how it stopped. *)
Record ExecResult (V : Type) := mkExecResult {
  ex_globals : gmap string V;
  ex_stdout : string;
  ex_stderr : string;
  ex_outcome : Outcome
}.
Arguments mkExecResult {V} _ _ _ _.
Arguments ex_globals {V} _.
Arguments ex_stdout {V} _.
Arguments ex_stderr {V} _.
Arguments ex_outcome {V} _.

(** ** The interpreter under the kernel

    The script is written against the Python runtime.  Its own two
    functions are embedded over this interface; [MiniPy] below is an
    instance that can be run. *)
Class PyRuntime := {
  Value : Type;                       (* objects bound in a namespace *)
  Code : Type;                        (* code objects *)
  builtins_dict : Value;              (* [builtins.__dict__] *)
  json_loads : string → PyObj + PyExc;
  compile_source : string → Code + PyExc;
  eval_code : Code → gmap string Value → ExecResult Value;
  (* [compile] reports failures with SyntaxError, ValueError and the
     like, all of them below [Exception] *)
  compile_source_raises :
    ∀ s e, compile_source s = inr e → isinstance e "Exception" = true;
  (* the empty module compiles, and running it does nothing *)
  compile_source_empty :
    ∃ c, compile_source "" = inl c ∧
         ∀ g, eval_code c g = mkExecResult g "" "" Returned
}.

(** ** The process *)

(** A file object: one of the two real streams of the process, or an
    [io.StringIO] buffer, named by its position in the store. *)
Inductive File :=
  | RealStdout
  | RealStderr
  | StringIO (id : nat).

(** What the outside of the process observes, in order. *)
Inductive Event :=
  | StdinReadline (line : string)
  | StdoutWrite (text : string)
  | StdoutFlush
  | StderrWrite (text : string)
  | StderrFlush.

(** The lines that [readline] returned, the empty text of end-of-stream
    included. *)
Definition reads (events : list Event) : list string :=
  omap (λ ev, match ev with StdinReadline line => Some line | _ => None end) events.

(** The texts written to the real error stream. *)
Definition stderr_writes (events : list Event) : list string :=
  omap (λ ev, match ev with StderrWrite text => Some text | _ => None end) events.

(** The traffic without the reads: what the process put out. *)
Definition outputs (events : list Event) : list Event :=
  omap (λ ev, match ev with StdinReadline _ => None | _ => Some ev end) events.

(** What serving one request looks like from outside: the line is
    read, the response line is written, the stream is flushed. *)
Definition exchange (line : string) (response : Response) : list Event :=
  [StdinReadline line; StdoutWrite (json_dumps response +:+ nl); StdoutFlush].

Definition exchanges (lines : list string) (responses : list Response) : list Event :=
  concat (zip_with exchange lines responses).

(** How a call ends: with a value, with an exception on its way to the
    caller, or not at all. *)
Inductive Res (A : Type) :=
  | Ret (a : A)
  | Raise (e : PyExc)
  | Hang.
Arguments Ret {A} _.
Arguments Raise {A} _.
Arguments Hang {A}.

(** How control leaves the body of [while True]: [continue] (or falling
    off its end), or one of the two [break]s.  [main] returns [None]
    after either [break]; the embedding returns which one it was. *)
Inductive LoopExit :=
  | EndOfStream      (* line 44 *)
  | FatalError.      (* line 59 *)

Inductive Flow :=
  | Continue
  | Break (how : LoopExit).

Section Kernel.
Context {R : PyRuntime}.

Record World := mkWorld {
  w_trace : list Event;                  (* traffic on the real streams *)
  w_sys_stdout : File;                   (* the binding [sys.stdout] *)
  w_sys_stderr : File;                   (* the binding [sys.stderr] *)
  w_stringios : list string;             (* contents of the StringIO objects *)
  w_dicts : list (gmap string Value)     (* the dict objects, by reference *)
}.

Definition init_world : World := mkWorld [] RealStdout RealStderr [] [].

Definition set_trace (t : list Event) (w : World) : World :=
  mkWorld t (w_sys_stdout w) (w_sys_stderr w) (w_stringios w) (w_dicts w).
Definition set_sys_stdout (f : File) (w : World) : World :=
  mkWorld (w_trace w) f (w_sys_stderr w) (w_stringios w) (w_dicts w).
Definition set_sys_stderr (f : File) (w : World) : World :=
  mkWorld (w_trace w) (w_sys_stdout w) f (w_stringios w) (w_dicts w).
Definition set_stringios (b : list string) (w : World) : World :=
  mkWorld (w_trace w) (w_sys_stdout w) (w_sys_stderr w) b (w_dicts w).
Definition set_dicts (d : list (gmap string Value)) (w : World) : World :=
  mkWorld (w_trace w) (w_sys_stdout w) (w_sys_stderr w) (w_stringios w) d.

(** *** Computations: state, exceptions, and calls that never return *)

Definition M (A : Type) : Type := World → Res A * World.

Definition raise {A} (e : PyExc) : M A := λ w, (Raise e, w).

#[export] Instance M_ret : MRet M := λ A a w, (Ret a, w).
#[export] Instance M_bind : MBind M := λ A B k m w,
  match m w with
  | (Ret a, w') => k a w'
  | (Raise e, w') => (Raise e, w')
  | (Hang, w') => (Hang, w')
  end.

(** [try: body / except cls1: h1 / except cls2 as e: h2 ...]: the first
    clause whose class the exception is an instance of handles it; with
    no such clause it goes on to the caller. *)
Definition try_except {A} (body : M A)
    (clauses : list (string * (PyExc → M A))) : M A :=
  λ w, match body w with
       | (Raise e, w') =>
           match find (λ cl, isinstance e cl.1) clauses with
           | Some cl => cl.2 e w'
           | None => (Raise e, w')
           end
       | r => r
       end.

(** [with cm: body], for a context manager whose [__exit__] returns
    [None]: [__exit__] runs when the body returns and when it raises,
    and a raised exception continues afterwards. *)
Definition with_ {T A} (enter : M T) (exit : T → M ()) (body : M A) : M A :=
  λ w, match enter w with
       | (Ret t, w1) =>
           match body w1 with
           | (Ret a, w2) =>
               match exit t w2 with
               | (Ret _, w3) => (Ret a, w3)
               | (Raise e, w3) => (Raise e, w3)
               | (Hang, w3) => (Hang, w3)
               end
           | (Raise e, w2) =>
               match exit t w2 with
               | (Ret _, w3) => (Raise e, w3)
               | (Raise e', w3) => (Raise e', w3)
               | (Hang, w3) => (Hang, w3)
               end
           | (Hang, w2) => (Hang, w2)
           end
       | (Raise e, w1) => (Raise e, w1)
       | (Hang, w1) => (Hang, w1)
       end.

(** *** Interpreter services used by the script *)

(** [f.write(text)] *)
Definition file_write (f : File) (text : string) : M () := λ w,
  match f with
  | RealStdout => (Ret (), set_trace (w_trace w ++ [StdoutWrite text]) w)
  | RealStderr => (Ret (), set_trace (w_trace w ++ [StderrWrite text]) w)
  | StringIO id =>
      (Ret (), set_stringios (alter (λ old, old +:+ text) id (w_stringios w)) w)
  end.

(** [f.flush()]; a StringIO has nothing to flush. *)
Definition file_flush (f : File) : M () := λ w,
  match f with
  | RealStdout => (Ret (), set_trace (w_trace w ++ [StdoutFlush]) w)
  | RealStderr => (Ret (), set_trace (w_trace w ++ [StderrFlush]) w)
  | StringIO _ => (Ret (), w)
  end.

Definition sys_stdout_write (text : string) : M () :=
  λ w, file_write (w_sys_stdout w) text w.
Definition sys_stdout_flush : M () :=
  λ w, file_flush (w_sys_stdout w) w.
Definition sys_stderr_write (text : string) : M () :=
  λ w, file_write (w_sys_stderr w) text w.

(** [io.StringIO()]: a new, empty buffer. *)
Definition io_StringIO : M nat := λ w,
  (Ret (length (w_stringios w)), set_stringios (w_stringios w ++ [""]) w).

(** [buffer.getvalue()] *)
Definition getvalue (id : nat) : M string :=
  λ w, (Ret (w_stringios w !!! id), w).

(** [contextlib.redirect_stdout(target)]: [__enter__] keeps the current
    binding of [sys.stdout] and installs the target, [__exit__] puts the
    kept binding back. *)
Definition redirect_stdout_enter (new_target : File) : M File :=
  λ w, (Ret (w_sys_stdout w), set_sys_stdout new_target w).
Definition redirect_stdout_exit (old_target : File) : M () :=
  λ w, (Ret (), set_sys_stdout old_target w).

Definition redirect_stderr_enter (new_target : File) : M File :=
  λ w, (Ret (w_sys_stderr w), set_sys_stderr new_target w).
Definition redirect_stderr_exit (old_target : File) : M () :=
  λ w, (Ret (), set_sys_stderr old_target w).

Definition with_redirect_stdout {A} (target : nat) (body : M A) : M A :=
  with_ (redirect_stdout_enter (StringIO target)) redirect_stdout_exit body.
Definition with_redirect_stderr {A} (target : nat) (body : M A) : M A :=
  with_ (redirect_stderr_enter (StringIO target)) redirect_stderr_exit body.

(** [{}]: a new dict object; the result is the reference to it. *)
Definition new_dict : M nat := λ w,
  (Ret (length (w_dicts w)), set_dicts (w_dicts w ++ [∅]) w).

(** [compile(source, "<string>", "exec")]: only text is compiled here
    (the decoder produces neither bytes nor AST objects). *)
Definition compile (source : PyObj) : Code + PyExc :=
  match source with
  | PStr text => compile_source text
  | _ => inr (TypeError "compile() arg 1 must be a string, bytes or AST object")
  end.

Definition py_compile (source : PyObj) : M Code :=
  match compile source with
  | inl code => mret code
  | inr e => raise e
  end.

(** [exec] puts a reference to the builtins into a namespace that has
    no [__builtins__] entry before it evaluates the code. *)
Definition with_builtins (g : gmap string Value) : gmap string Value :=
  match g !! "__builtins__" with
  | Some _ => g
  | None => <["__builtins__" := builtins_dict]> g
  end.

(** The text a run printed goes out through the given writer; a run that
    printed nothing made no call. *)
Definition emit (write : string → M ()) (text : string) : M () :=
  if decide (text = "") then mret () else write text.

(** [exec(code, globals)]: the code runs in the dict behind the
    reference and writes to whatever [sys.stdout] and [sys.stderr] are
    bound to. *)
Definition py_exec (code : Code) (globals : nat) : M () := λ w,
  let r := eval_code code (with_builtins (w_dicts w !!! globals)) in
  let w1 := set_dicts (<[globals := ex_globals r]> (w_dicts w)) w in
  match (emit sys_stdout_write (ex_stdout r);;
         emit sys_stderr_write (ex_stderr r)) w1 with
  | (_, w2) =>
      match ex_outcome r with
      | Returned => (Ret (), w2)
      | Raised e => (Raise e, w2)
      | Diverged => (Hang, w2)
      end
  end.

(** ** The script *)

(** Lines 7-30. *)
Definition execute_code (code : PyObj) (context : nat) : M Response :=
  stdout_capture ← io_StringIO;
  stderr_capture ← io_StringIO;
  error ← try_except
    (with_redirect_stdout stdout_capture
       (with_redirect_stderr stderr_capture
          (compiled_code ← py_compile code;
           py_exec compiled_code context));;
     mret None)
    [("Exception", λ e, mret (Some (format_exc e)))];
  out ← getvalue stdout_capture;
  err ← getvalue stderr_capture;
  mret (mkResponse out err error).

(** [sys.stdin.readline()] seen from outside: the line handed over, or
    the empty text at end-of-stream. *)
Definition readline (line : string) : M string := λ w,
  (Ret line, set_trace (w_trace w ++ [StdinReadline line]) w).

(** [json.loads(line)] *)
Definition py_json_loads (line : string) : M PyObj :=
  match json_loads line with
  | inl request => mret request
  | inr e => raise e
  end.

(** [request.get(key, default)]: a dict method; the other decoded
    objects have no attribute of that name. *)
Definition request_get (request : PyObj) (key : string) (dflt : PyObj) : M PyObj :=
  match request with
  | PDict items => mret (default dflt (dict_lookup items key))
  | _ => raise (AttributeError
                  ("'" +:+ type_name request +:+ "' object has no attribute 'get'"))
  end.

(** Lines 41-59, one pass of the loop, with [next] the result that the
    call of [readline] on line 42 has in this pass. *)
Definition iteration (next : string) (context : nat) : M Flow :=
  try_except
    (line ← readline next;
     if decide (line = "") then mret (Break EndOfStream) else
     request ← py_json_loads line;
     code ← request_get request "code" (PStr "");
     response ← execute_code code context;
     sys_stdout_write (json_dumps response +:+ nl);;
     sys_stdout_flush;;
     mret Continue)
    [("JSONDecodeError", λ _, mret Continue);
     ("Exception", λ e,
        sys_stderr_write ("Fatal Kernel Error: " +:+ exc_str e +:+ nl);;
        mret (Break FatalError))].

(** Lines 40-59.  [stdin] holds the lines still to come; once they are
    used up [readline] returns the empty text. *)
Fixpoint main_loop (stdin : list string) (context : nat) : M LoopExit :=
  match stdin with
  | [] =>
      flow ← iteration "" context;
      mret (match flow with Break how => how | Continue => EndOfStream end)
  | line :: rest =>
      flow ← iteration line context;
      match flow with
      | Break how => mret how
      | Continue => main_loop rest context
      end
  end.

(** Lines 32-59. *)
Definition main (input : string) : M LoopExit :=
  context ← new_dict;
  main_loop (split_lines input) context.

(** ** Reading a run *)

(** The process when the loop is entered: the streams are the real
    ones and [context] is reference 0, to an empty dict. *)
Definition started : World := (new_dict init_world).2.

(** The world once a call of [execute_code] is over: its two buffers
    stay behind with what was captured. *)
Definition after_call (out err : string) (w : World) : World :=
  set_stringios (w_stringios w ++ [out; err]) w.

(** Events added to the traffic on the real streams. *)
Definition log (events : list Event) (w : World) : World :=
  set_trace (w_trace w ++ events) w.

(** [sys.stdout] and [sys.stderr] are the real streams, as at start-up. *)
Definition streams_real (w : World) : Prop :=
  w_sys_stdout w = RealStdout ∧ w_sys_stderr w = RealStderr.

(** [request.get("code", "")] on a decoded object. *)
Definition code_field (items : list (string * PyObj)) : PyObj :=
  default (PStr "") (dict_lookup items "code").

(** The response that [execute_code] builds from a run that came back. *)
Definition response_of (r : ExecResult Value) : Response :=
  mkResponse (ex_stdout r) (ex_stderr r)
    match ex_outcome r with
    | Raised e => Some (format_exc e)
    | _ => None
    end.

(** The response to a source that does not compile. *)
Definition compile_failure (e : PyExc) : Response :=
  mkResponse "" "" (Some (format_exc e)).

(** A run that [execute_code] answers: it returned, or it raised an
    instance of [Exception]. *)
Definition answered (o : Outcome) : Prop :=
  match o with
  | Returned => True
  | Raised e => isinstance e "Exception" = true
  | Diverged => False
  end.

(** The responses to a sequence of requests that starts in namespace
    [g], each request running in the namespace its predecessors left. *)
Fixpoint answers (codes : list PyObj) (g : gmap string Value) : list Response :=
  match codes with
  | [] => []
  | code :: rest =>
      match compile code with
      | inr e => compile_failure e :: answers rest g
      | inl c =>
          let r := eval_code c (with_builtins g) in
          response_of r :: answers rest (ex_globals r)
      end
  end.

Fixpoint all_answered (codes : list PyObj) (g : gmap string Value) : Prop :=
  match codes with
  | [] => True
  | code :: rest =>
      match compile code with
      | inr _ => all_answered rest g
      | inl c =>
          let r := eval_code c (with_builtins g) in
          answered (ex_outcome r) ∧ all_answered rest (ex_globals r)
      end
  end.

(** What the clauses of the loop's [try] do with an exception. *)
Definition loop_handlers (e : PyExc) (w : World) : Res Flow * World :=
  if isinstance e "JSONDecodeError" then (Ret Continue, w)
  else if isinstance e "Exception"
  then (Ret (Break FatalError),
        log [StderrWrite ("Fatal Kernel Error: " +:+ exc_str e +:+ nl)] w)
  else (Raise e, w).

(** Compilation or execution of [code] in namespace [g] raises. *)
Definition raises (code : PyObj) (g : gmap string Value) : Prop :=
  match compile code with
  | inr _ => True
  | inl c => ∃ e, ex_outcome (eval_code c (with_builtins g)) = Raised e
  end.

(** A line that decodes to a request object with the given [code]. *)
Definition requests (line : string) (code : PyObj) : Prop :=
  line ≠ "" ∧ ∃ items, json_loads line = inl (PDict items) ∧ code_field items = code.

End Kernel.

(** ** MiniPy: a runtime that can be run

    A decoder for JSON texts and an interpreter for a small fragment of
    Python, enough to run the kernel on concrete input.  Text is over
    the code points 0..255.  A source text outside the fragment is
    refused by [compile_text]; on the texts it accepts the interpreter
    follows CPython.  Traceback texts have the frames and the final line
    that CPython prints for a script started as [kernel_runner.py],
    without the echo of the source line. *)
Module MiniPy.

(** *** JSON texts *)

Definition is_ws (c : ascii) : bool :=
  let n := N_of_ascii c in
  ((n =? 32) || (n =? 9) || (n =? 10) || (n =? 13))%N.

Definition is_digit (c : ascii) : bool :=
  let n := N_of_ascii c in ((48 <=? n) && (n <=? 57))%N.

Fixpoint skip_ws (s : string) : string :=
  match s with
  | String c rest => if is_ws c then skip_ws rest else s
  | EmptyString => EmptyString
  end.

Definition hex_value (c : ascii) : option N :=
  let n := N_of_ascii c in
  if ((48 <=? n) && (n <=? 57))%N then Some (n - 48)%N
  else if ((97 <=? n) && (n <=? 102))%N then Some (n - 87)%N
  else if ((65 <=? n) && (n <=? 70))%N then Some (n - 55)%N
  else None.

Definition unescape (c : ascii) : option ascii :=
  let n := N_of_ascii c in
  if (n =? 34)%N then Some c                      (* quote *)
  else if (n =? 92)%N then Some c                 (* backslash *)
  else if (n =? 47)%N then Some c                 (* slash *)
  else if (n =? 98)%N then Some "008"%char        (* b *)
  else if (n =? 102)%N then Some "012"%char       (* f *)
  else if (n =? 110)%N then Some "010"%char       (* n *)
  else if (n =? 114)%N then Some "013"%char       (* r *)
  else if (n =? 116)%N then Some "009"%char       (* t *)
  else None.

Definition cons_char (c : ascii) (r : option (string * string)) : option (string * string) :=
  match r with
  | Some (text, rest) => Some (String c text, rest)
  | None => None
  end.

(** The inside of a string, after the opening quote: the decoded text
    and what follows the closing quote. *)
Fixpoint scan_string (s : string) : option (string * string) :=
  match s with
  | EmptyString => None
  | String c rest =>
      let n := N_of_ascii c in
      if (n =? 34)%N then Some (EmptyString, rest)
      else if (n =? 92)%N then
        match rest with
        | EmptyString => None
        | String e rest' =>
            match unescape e with
            | Some ch => cons_char ch (scan_string rest')
            | None =>
                if (N_of_ascii e =? 117)%N then
                  match rest' with
                  | String h1 (String h2 (String h3 (String h4 rest''))) =>
                      match hex_value h1, hex_value h2, hex_value h3, hex_value h4 with
                      | Some 0%N, Some 0%N, Some a, Some b =>
                          cons_char (ascii_of_N (16 * a + b)) (scan_string rest'')
                      | _, _, _, _ => None
                      end
                  | _ => None
                  end
                else None
            end
        end
      else if (n <? 32)%N then None
      else cons_char c (scan_string rest)
  end.

Fixpoint take_digits (s : string) : string * string :=
  match s with
  | String c rest =>
      if is_digit c then let '(ds, r) := take_digits rest in (String c ds, r)
      else (EmptyString, s)
  | EmptyString => (EmptyString, EmptyString)
  end.

Definition digits_value (ds : string) : Z :=
  fold_left (λ acc c, 10 * acc + Z.of_N (N_of_ascii c - 48))%Z (list_ascii_of_string ds) 0%Z.

(** The integer part of a number: a lone zero, or digits that do not
    start with zero. *)
Definition take_int (s : string) : option (string * string) :=
  match s with
  | String c rest =>
      if (N_of_ascii c =? 48)%N then Some (String c EmptyString, rest)
      else if is_digit c then Some (take_digits s)
      else None
  | EmptyString => None
  end.

Definition take_frac (s : string) : string * string :=
  match s with
  | String c rest =>
      if (N_of_ascii c =? 46)%N then
        match take_digits rest with
        | (EmptyString, _) => (EmptyString, s)
        | (ds, r) => (String c ds, r)
        end
      else (EmptyString, s)
  | EmptyString => (EmptyString, s)
  end.

Definition take_exp (s : string) : string * string :=
  match s with
  | String c rest =>
      if ((N_of_ascii c =? 101) || (N_of_ascii c =? 69))%N then
        let '(sign, rest') :=
          match rest with
          | String g r =>
              if ((N_of_ascii g =? 43) || (N_of_ascii g =? 45))%N
              then (String g EmptyString, r) else (EmptyString, rest)
          | EmptyString => (EmptyString, rest)
          end in
        match take_digits rest' with
        | (EmptyString, _) => (EmptyString, s)
        | (ds, r) => (String c (sign +:+ ds), r)
        end
      else (EmptyString, s)
  | EmptyString => (EmptyString, s)
  end.

Definition scan_number (negative : bool) (s : string) : option (PyObj * string) :=
  match take_int s with
  | None => None
  | Some (int_part, r1) =>
      let '(frac, r2) := take_frac r1 in
      let '(exp, r3) := take_exp r2 in
      let sign := if negative then "-" else "" in
      if decide (frac = "" ∧ exp = "")
      then Some (PInt (if negative then - digits_value int_part
                       else digits_value int_part)%Z, r3)
      else Some (PFloat (sign +:+ int_part +:+ frac +:+ exp), r3)
  end.

(** [strip_prefix word s]: what follows [word] at the start of [s]. *)
Fixpoint strip_prefix (word s : string) : option string :=
  match word, s with
  | EmptyString, _ => Some s
  | String a word', String b s' =>
      if decide (a = b) then strip_prefix word' s' else None
  | String _ _, EmptyString => None
  end.

(** A value at the start of [s], and what follows it.  Every call
    reads at least one character before it nests, so fuel above the
    length of the text is never used up. *)
Fixpoint parse_value (fuel : nat) (s : string) : option (PyObj * string) :=
  match fuel with
  | 0 => None
  | S fuel' =>
      match s with
      | EmptyString => None
      | String c rest =>
          let n := N_of_ascii c in
          if (n =? 34)%N then
            match scan_string rest with
            | Some (text, r) => Some (PStr text, r)
            | None => None
            end
          else if (n =? 123)%N then                       (* { *)
            match skip_ws rest with
            | String d r =>
                if (N_of_ascii d =? 125)%N then Some (PDict [], r)
                else match parse_members fuel' (String d r) with
                     | Some (items, r') => Some (PDict items, r')
                     | None => None
                     end
            | EmptyString => None
            end
          else if (n =? 91)%N then                        (* [ *)
            match skip_ws rest with
            | String d r =>
                if (N_of_ascii d =? 93)%N then Some (PList [], r)
                else match parse_items fuel' (String d r) with
                     | Some (items, r') => Some (PList items, r')
                     | None => None
                     end
            | EmptyString => None
            end
          else if (n =? 45)%N then                        (* - *)
            match strip_prefix "Infinity" rest with
            | Some r => Some (PFloat "-Infinity", r)
            | None => scan_number true rest
            end
          else if is_digit c then scan_number false s
          else match strip_prefix "null" s with
          | Some r => Some (PNone, r)
          | None => match strip_prefix "true" s with
          | Some r => Some (PBool true, r)
          | None => match strip_prefix "false" s with
          | Some r => Some (PBool false, r)
          | None => match strip_prefix "NaN" s with
          | Some r => Some (PFloat "NaN", r)
          | None => match strip_prefix "Infinity" s with
          | Some r => Some (PFloat "Infinity", r)
          | None => None
          end end end end end
      end
  end

(** The pairs of an object, from the quote of a key on. *)
with parse_members (fuel : nat) (s : string) : option (list (string * PyObj) * string) :=
  match fuel with
  | 0 => None
  | S fuel' =>
      match s with
      | String q rest =>
          if (N_of_ascii q =? 34)%N then
            match scan_string rest with
            | Some (key, r1) =>
                match skip_ws r1 with
                | String colon r2 =>
                    if (N_of_ascii colon =? 58)%N then
                      match parse_value fuel' (skip_ws r2) with
                      | Some (v, r3) =>
                          match skip_ws r3 with
                          | String d r4 =>
                              if (N_of_ascii d =? 125)%N then Some ([(key, v)], r4)
                              else if (N_of_ascii d =? 44)%N then
                                match parse_members fuel' (skip_ws r4) with
                                | Some (more, r5) => Some ((key, v) :: more, r5)
                                | None => None
                                end
                              else None
                          | EmptyString => None
                          end
                      | None => None
                      end
                    else None
                | EmptyString => None
                end
            | None => None
            end
          else None
      | EmptyString => None
      end
  end

(** The elements of an array, from the first one on. *)
with parse_items (fuel : nat) (s : string) : option (list PyObj * string) :=
  match fuel with
  | 0 => None
  | S fuel' =>
      match parse_value fuel' s with
      | Some (v, r1) =>
          match skip_ws r1 with
          | String d r2 =>
              if (N_of_ascii d =? 93)%N then Some ([v], r2)
              else if (N_of_ascii d =? 44)%N then
                match parse_items fuel' (skip_ws r2) with
                | Some (more, r3) => Some (v :: more, r3)
                | None => None
                end
              else None
          | EmptyString => None
          end
      | None => None
      end
  end.

Definition JSONDecodeError (message : string) : PyExc :=
  mkExc ["JSONDecodeError"; "ValueError"; "Exception"; "BaseException"; "object"]
        message
        (traceback_text "" "json.decoder.JSONDecodeError" message).

(** [json.loads]: one value with white space around it and nothing
    else.  The messages leave out the position that CPython appends. *)
Definition decode (text : string) : PyObj + PyExc :=
  match parse_value (2 * String.length text + 2) (skip_ws text) with
  | Some (v, rest) =>
      match skip_ws rest with
      | EmptyString => inl v
      | String _ _ => inr (JSONDecodeError "Extra data")
      end
  | None => inr (JSONDecodeError "Expecting value")
  end.

(** *** The Python fragment

    A program is a sequence of lines of simple statements separated
    by semicolons:
    - [pass];
    - [v = e], [print(e)], [print()], and [e] alone;
    - [raise C], [raise C()], [raise C(e)] for the builtin exception
      classes listed in [exception_mro];
    - the loop [while True: pass] on a line of its own.
    An expression [e] is a decimal integer, a string in single or
    double quotes without backslashes, [True], [False], [None], or a
    variable.  A variable is one letter followed by digits, so no
    variable is the name of a builtin. *)

Inductive Token :=
  | TName (name : string)
  | TInt (n : Z)
  | TStr (text : string)
  | TEq | TLParen | TRParen | TColon | TSemi.

Inductive Lexing :=
  | Between
  | InName (acc : string)
  | InInt (acc : string)
  | InStr (quote : ascii) (acc : string).

Definition is_letter (c : ascii) : bool :=
  let n := N_of_ascii c in
  (((65 <=? n) && (n <=? 90)) || ((97 <=? n) && (n <=? 122)))%N.

Definition is_name_char (c : ascii) : bool :=
  is_letter c || is_digit c || (N_of_ascii c =? 95)%N.

Definition snoc (acc : string) (c : ascii) : string := acc +:+ String c EmptyString.

(** A character met between tokens. *)
Definition lex_start (c : ascii) : option (Lexing * list Token) :=
  let n := N_of_ascii c in
  if (n =? 32)%N then Some (Between, [])
  else if is_letter c || (n =? 95)%N then Some (InName (String c EmptyString), [])
  else if is_digit c then Some (InInt (String c EmptyString), [])
  else if ((n =? 39) || (n =? 34))%N then Some (InStr c EmptyString, [])
  else if (n =? 61)%N then Some (Between, [TEq])
  else if (n =? 40)%N then Some (Between, [TLParen])
  else if (n =? 41)%N then Some (Between, [TRParen])
  else if (n =? 58)%N then Some (Between, [TColon])
  else if (n =? 59)%N then Some (Between, [TSemi])
  else None.

Definition int_token (acc : string) : option Token :=
  match acc with
  | String c (String _ _) =>
      if (N_of_ascii c =? 48)%N then None else Some (TInt (digits_value acc))
  | _ => Some (TInt (digits_value acc))
  end.

Definition after_token (t : Token) (c : ascii) : option (Lexing * list Token) :=
  match lex_start c with
  | Some (st, toks) => Some (st, t :: toks)
  | None => None
  end.

Definition lex_step (st : Lexing) (c : ascii) : option (Lexing * list Token) :=
  match st with
  | Between => lex_start c
  | InName acc =>
      if is_name_char c then Some (InName (snoc acc c), [])
      else after_token (TName acc) c
  | InInt acc =>
      if is_digit c then Some (InInt (snoc acc c), [])
      else if is_name_char c then None
      else match int_token acc with
           | Some t => after_token t c
           | None => None
           end
  | InStr q acc =>
      if decide (c = q) then Some (Between, [TStr acc])
      else if (N_of_ascii c =? 92)%N then None
      else Some (InStr q (snoc acc c), [])
  end.

Fixpoint lex (st : Lexing) (line : string) : option (list Token) :=
  match line with
  | EmptyString =>
      match st with
      | Between => Some []
      | InName acc => Some [TName acc]
      | InInt acc => match int_token acc with Some t => Some [t] | None => None end
      | InStr _ _ => None
      end
  | String c rest =>
      match lex_step st c with
      | Some (st', toks) =>
          match lex st' rest with
          | Some more => Some (toks ++ more)
          | None => None
          end
      | None => None
      end
  end.

Inductive Expr :=
  | EInt (n : Z)
  | EStr (text : string)
  | ETrue | EFalse | ENone
  | EVar (name : string).

Inductive Stmt :=
  | SPass
  | SAssign (name : string) (e : Expr)
  | SPrint (arg : option Expr)
  | SRaise (cls : string) (arg : option Expr)
  | SExpr (e : Expr)
  | SForever.

Definition is_variable (name : string) : bool :=
  match name with
  | String c rest => is_letter c && forallb is_digit (list_ascii_of_string rest)
  | EmptyString => false
  end.

(** The builtin exception classes of the fragment, with the classes
    their instances belong to. *)
Definition exception_mro (cls : string) : option (list string) :=
  if decide (cls = "BaseException") then Some ["BaseException"; "object"]
  else if decide (cls = "Exception") then Some ["Exception"; "BaseException"; "object"]
  else if decide (cls ∈ ["ValueError"; "TypeError"; "RuntimeError"; "NameError"])
  then Some [cls; "Exception"; "BaseException"; "object"]
  else if decide (cls ∈ ["SystemExit"; "KeyboardInterrupt"; "GeneratorExit"])
  then Some [cls; "BaseException"; "object"]
  else None.

Definition parse_expr (t : Token) : option Expr :=
  match t with
  | TInt n => Some (EInt n)
  | TStr text => Some (EStr text)
  | TName name =>
      if decide (name = "True") then Some ETrue
      else if decide (name = "False") then Some EFalse
      else if decide (name = "None") then Some ENone
      else if is_variable name then Some (EVar name)
      else None
  | _ => None
  end.

Definition parse_stmt (toks : list Token) : option Stmt :=
  match toks with
  | [TName name] =>
      if decide (name = "pass") then Some SPass
      else SExpr <$> parse_expr (TName name)
  | [t] => SExpr <$> parse_expr t
  | [TName name; TEq; t] =>
      if is_variable name then SAssign name <$> parse_expr t else None
  | [TName word; TName cls] =>
      if decide (word = "raise")
      then match exception_mro cls with
           | Some _ => Some (SRaise cls None)
           | None => None
           end
      else None
  | [TName name; TLParen; TRParen] =>
      if decide (name = "print") then Some (SPrint None) else None
  | [TName name; TLParen; t; TRParen] =>
      if decide (name = "print") then (λ e, SPrint (Some e)) <$> parse_expr t
      else None
  | [TName word; TName cls; TLParen; TRParen] =>
      if decide (word = "raise")
      then match exception_mro cls with
           | Some _ => Some (SRaise cls None)
           | None => None
           end
      else None
  | [TName word; TName cls; TLParen; t; TRParen] =>
      if decide (word = "raise")
      then match exception_mro cls with
           | Some _ => (λ e, SRaise cls (Some e)) <$> parse_expr t
           | None => None
           end
      else None
  | _ => None
  end.

Fixpoint split_semis (toks : list Token) : list (list Token) :=
  match toks with
  | [] => [[]]
  | TSemi :: rest => [] :: split_semis rest
  | t :: rest =>
      match split_semis rest with
      | seg :: segs => (t :: seg) :: segs
      | [] => [[t]]
      end
  end.

(** A semicolon may end the line. *)
Definition drop_last_empty (segs : list (list Token)) : list (list Token) :=
  match reverse segs with
  | [] :: (seg :: before) => reverse (seg :: before)
  | _ => segs
  end.

Definition is_forever (toks : list Token) : bool :=
  match toks with
  | [TName a; TName b; TColon; TName c] =>
      bool_decide (a = "while" ∧ b = "True" ∧ c = "pass")
  | _ => false
  end.

(** The statements of one line; [None] for a line that is not in the
    fragment.  A line that holds a statement starts in the first column. *)
Definition parse_line (line : string) : option (list Stmt) :=
  match lex Between line with
  | None => None
  | Some [] => Some []
  | Some toks =>
      match line with
      | String c _ =>
          if (N_of_ascii c =? 32)%N then None
          else if is_forever toks then Some [SForever]
          else mapM parse_stmt (drop_last_empty (split_semis toks))
      | EmptyString => None
      end
  end.

Fixpoint text_lines_from (current : string) (text : string) : list string :=
  match text with
  | EmptyString => [current]
  | String c rest =>
      if (N_of_ascii c =? 10)%N
      then current :: text_lines_from EmptyString rest
      else text_lines_from (snoc current c) rest
  end.

(** The statements of a program with the numbers of their lines, or
    the number of the first line that is refused. *)
Fixpoint parse_lines (number : nat) (lines : list string) : list (nat * Stmt) + nat :=
  match lines with
  | [] => inl []
  | line :: rest =>
      match parse_line line with
      | None => inr number
      | Some stmts =>
          match parse_lines (S number) rest with
          | inl more => inl (((λ st, (number, st)) <$> stmts) ++ more)
          | inr bad => inr bad
          end
      end
  end.

Definition frame_of_compile : string :=
  "  File " +:+ quoted "kernel_runner.py" +:+ ", line 20, in execute_code" +:+ nl +:+
  "    compiled_code = compile(code, " +:+ quoted "<string>" +:+ ", " +:+
  quoted "exec" +:+ ")" +:+ nl.

Definition frame_of_exec : string :=
  "  File " +:+ quoted "kernel_runner.py" +:+ ", line 21, in execute_code" +:+ nl +:+
  "    exec(compiled_code, context)" +:+ nl.

Definition SyntaxError (line : nat) : PyExc :=
  mkExc ["SyntaxError"; "Exception"; "BaseException"; "object"]
        ("invalid syntax (<string>, line " +:+ pretty line +:+ ")")
        (traceback_text
           (frame_of_compile +:+
            "  File " +:+ quoted "<string>" +:+ ", line " +:+ pretty line +:+ nl)
           "SyntaxError" "invalid syntax").

Definition compile_text (text : string) : list (nat * Stmt) + PyExc :=
  match parse_lines 1 (text_lines_from EmptyString text) with
  | inl prog => inl prog
  | inr line => inr (SyntaxError line)
  end.

(** *** Running a program *)

Inductive Val :=
  | VNone
  | VBool (b : bool)
  | VInt (n : Z)
  | VStr (text : string)
  | VBuiltins.          (* the dict of the builtins module *)

(** [str(v)], for the values a variable can hold. *)
Definition str_of (v : Val) : string :=
  match v with
  | VNone => "None"
  | VBool true => "True"
  | VBool false => "False"
  | VInt n => pretty n
  | VStr text => text
  | VBuiltins => "{...}"
  end.

(** The value of an expression, or the name that is not bound. *)
Definition eval_expr (g : gmap string Val) (e : Expr) : Val + string :=
  match e with
  | EInt n => inl (VInt n)
  | EStr text => inl (VStr text)
  | ETrue => inl (VBool true)
  | EFalse => inl (VBool false)
  | ENone => inl VNone
  | EVar name =>
      match g !! name with
      | Some v => inl v
      | None => inr name
      end
  end.

Definition frame_of_module (line : nat) : string :=
  "  File " +:+ quoted "<string>" +:+ ", line " +:+ pretty line +:+
  ", in <module>" +:+ nl.

(** An instance of class [cls] raised on the given line, with
    [str(e)] the given message. *)
Definition raised (line : nat) (cls : string) (message : string) : PyExc :=
  mkExc (default [cls; "Exception"; "BaseException"; "object"] (exception_mro cls))
        message
        (traceback_text (frame_of_exec +:+ frame_of_module line) cls message).

Definition name_error (line : nat) (name : string) : PyExc :=
  raised line "NameError" ("name '" +:+ name +:+ "' is not defined").

Fixpoint run (prog : list (nat * Stmt)) (g : gmap string Val) (out : string)
    : ExecResult Val :=
  match prog with
  | [] => mkExecResult g out "" Returned
  | (line, st) :: rest =>
      match st with
      | SPass => run rest g out
      | SAssign name e =>
          match eval_expr g e with
          | inl v => run rest (<[name := v]> g) out
          | inr unbound => mkExecResult g out "" (Raised (name_error line unbound))
          end
      | SPrint None => run rest g (out +:+ nl)
      | SPrint (Some e) =>
          match eval_expr g e with
          | inl v => run rest g (out +:+ str_of v +:+ nl)
          | inr unbound => mkExecResult g out "" (Raised (name_error line unbound))
          end
      | SRaise cls None => mkExecResult g out "" (Raised (raised line cls ""))
      | SRaise cls (Some e) =>
          match eval_expr g e with
          | inl v => mkExecResult g out "" (Raised (raised line cls (str_of v)))
          | inr unbound => mkExecResult g out "" (Raised (name_error line unbound))
          end
      | SExpr e =>
          match eval_expr g e with
          | inl _ => run rest g out
          | inr unbound => mkExecResult g out "" (Raised (name_error line unbound))
          end
      | SForever => mkExecResult g out "" Diverged
      end
  end.

Definition run_code (prog : list (nat * Stmt)) (g : gmap string Val) : ExecResult Val :=
  run prog g "".

Lemma compile_text_raises (text : string) (e : PyExc) :
  compile_text text = inr e → isinstance e "Exception" = true.
Proof.
  unfold compile_text.
  destruct (parse_lines 1 (text_lines_from "" text)); intros H; inversion H.
  reflexivity.
Qed.

Lemma compile_text_empty :
  ∃ c, compile_text "" = inl c ∧
       ∀ g, run_code c g = mkExecResult g "" "" Returned.
Proof. exists []. split; [reflexivity | intros g; reflexivity]. Qed.

#[export] Instance runtime : PyRuntime := {|
  Value := Val;
  Code := list (nat * Stmt);
  builtins_dict := VBuiltins;
  json_loads := decode;
  compile_source := compile_text;
  eval_code := run_code;
  compile_source_raises := compile_text_raises;
  compile_source_empty := compile_text_empty
|}.

(** A request line [{"code": "<text>"}], for text without characters
    that JSON escapes. *)
Definition request_line (code : string) : string :=
  "{" +:+ quoted "code" +:+ ": " +:+ quoted code +:+ "}" +:+ nl.

End MiniPy.

(** ** What the script does *)

Section Facts.
Context {R : PyRuntime}.
Implicit Types (w : World) (g : gmap string Value).

Lemma compile_raises (code : PyObj) (e : PyExc) :
  compile code = inr e → isinstance e "Exception" = true.
Proof.
  destruct code; simpl; try (intros [= <-]; reflexivity).
  apply compile_source_raises.
Qed.

Lemma alter_fresh (l : list string) (a b text : string) :
  alter (λ old, old +:+ text) (length l) (l ++ [a; b]) = l ++ [a +:+ text; b].
Proof.
  induction l; simpl; [reflexivity | by f_equal].
Qed.

Lemma alter_fresh_next (l : list string) (a b text : string) :
  alter (λ old, old +:+ text) (S (length l)) (l ++ [a; b]) = l ++ [a; b +:+ text].
Proof.
  induction l; simpl; [reflexivity | by f_equal].
Qed.

Lemma lookup_fresh (l : list string) (a b : string) :
  (l ++ [a; b]) !!! length l = a.
Proof. induction l; simpl; [reflexivity | exact IHl]. Qed.

Lemma lookup_fresh_next (l : list string) (a b : string) :
  (l ++ [a; b]) !!! S (length l) = b.
Proof. induction l; simpl; [reflexivity | exact IHl]. Qed.

(** A call of [execute_code], worked out: the response, and the world
    with the two buffers of the call and the dict as the code left it. *)
Lemma execute_code_run (code : PyObj) (context : nat) w :
  execute_code code context w =
  match compile code with
  | inr e => (Ret (compile_failure e), after_call "" "" w)
  | inl c =>
      let r := eval_code c (with_builtins (w_dicts w !!! context)) in
      let w' := set_dicts (<[context := ex_globals r]> (w_dicts w))
                  (after_call (ex_stdout r) (ex_stderr r) w) in
      match ex_outcome r with
      | Returned => (Ret (mkResponse (ex_stdout r) (ex_stderr r) None), w')
      | Raised e =>
          if isinstance e "Exception"
          then (Ret (mkResponse (ex_stdout r) (ex_stderr r) (Some (format_exc e))), w')
          else (Raise e, w')
      | Diverged =>
          (Hang, set_sys_stdout (StringIO (length (w_stringios w)))
                   (set_sys_stderr (StringIO (S (length (w_stringios w)))) w'))
      end
  end.
Proof.
  unfold execute_code, mbind, M_bind, io_StringIO, try_except,
    with_redirect_stdout, with_redirect_stderr, with_, py_compile.
  destruct w as [tr so se bufs ds]; simpl.
  rewrite <- (assoc_L (++) bufs [""] [""]), length_app, Nat.add_1_r; simpl.
  destruct (compile code) as [c|e] eqn:Hc; simpl.
  - unfold py_exec, mbind, M_bind, emit, sys_stdout_write, sys_stderr_write; simpl.
    destruct (eval_code c (with_builtins (ds !!! context))) as [g' out err oc]; simpl.
    destruct (decide (out = "")) as [->|Hout], (decide (err = "")) as [->|Herr];
      simpl; unfold set_stringios, set_dicts, set_sys_stdout, set_sys_stderr, after_call; simpl;
      rewrite ?alter_fresh, ?alter_fresh_next; simpl;
      destruct oc as [|e|]; simpl; try destruct (isinstance e "Exception"); simpl;
      rewrite ?lookup_fresh, ?lookup_fresh_next; reflexivity.
  - rewrite (compile_raises _ _ Hc); simpl.
    unfold after_call, set_stringios; simpl.
    by rewrite lookup_fresh, lookup_fresh_next.
Qed.

(** A call leaves the traffic on the real streams alone, and the stream
    bindings as it found them unless it never returns. *)
Lemma execute_code_frame (code : PyObj) (context : nat) w (res : Res Response) w' :
  execute_code code context w = (res, w') →
  w_trace w' = w_trace w ∧
  (res ≠ Hang → w_sys_stdout w' = w_sys_stdout w ∧ w_sys_stderr w' = w_sys_stderr w).
Proof.
  rewrite execute_code_run.
  destruct (compile code) as [c|e]; simpl.
  - destruct (ex_outcome _) as [|e|]; [| destruct (isinstance e "Exception") |];
      intros [= <- <-]; simpl; auto.
    split; [reflexivity | congruence].
  - intros [= <- <-]; simpl; auto.
Qed.

Lemma execute_code_never_raises_Exception (code : PyObj) (context : nat) w e w' :
  execute_code code context w = (Raise e, w') → isinstance e "Exception" = false.
Proof.
  rewrite execute_code_run.
  destruct (compile code) as [c|e0]; simpl; [| discriminate].
  destruct (ex_outcome _) as [|e1|]; try discriminate.
  destruct (isinstance e1 "Exception") eqn:He; [discriminate |].
  by intros [= <- <-].
Qed.

(** One pass of the loop over a line, worked out. *)
Lemma iteration_run (line : string) (context : nat) w :
  line ≠ "" → streams_real w →
  iteration line context w =
  let w0 := log [StdinReadline line] w in
  match json_loads line with
  | inr e => loop_handlers e w0
  | inl (PDict items) =>
      match execute_code (code_field items) context w0 with
      | (Ret response, w1) =>
          (Ret Continue,
           log [StdoutWrite (json_dumps response +:+ nl); StdoutFlush] w1)
      | (Raise e, w1) => loop_handlers e w1
      | (Hang, w1) => (Hang, w1)
      end
  | inl request =>
      (Ret (Break FatalError),
       log [StderrWrite
              ("Fatal Kernel Error: " +:+
               ("'" +:+ type_name request +:+ "' object has no attribute 'get'") +:+
               nl)] w0)
  end.
Proof.
  intros Hline [Hout Herr].
  assert (Hh : ∀ e w1, w_sys_stderr w1 = RealStderr →
    match find (λ cl : string * (PyExc → M Flow), isinstance e cl.1)
            [("JSONDecodeError", λ _, mret Continue);
             ("Exception", λ e,
                sys_stderr_write ("Fatal Kernel Error: " +:+ exc_str e +:+ nl);;
                mret (Break FatalError))] with
    | Some cl => cl.2 e w1
    | None => (Raise e, w1)
    end = loop_handlers e w1).
  { intros e w1 Hw1. unfold loop_handlers; simpl.
    destruct (isinstance e "JSONDecodeError"); [reflexivity |].
    destruct (isinstance e "Exception"); [| reflexivity].
    simpl. unfold mbind, M_bind, sys_stderr_write. by rewrite Hw1. }
  unfold iteration, try_except, mbind at 1, M_bind at 1, readline.
  destruct (decide (line = "")) as [|_]; [done |].
  unfold py_json_loads.
  destruct (json_loads line) as [request|e]; [| by apply Hh].
  unfold mbind at 1, M_bind at 1, mret at 1, M_ret at 1.
  destruct request as [|b|n|lit|s|l|items];
    try (unfold request_get, raise, mbind at 1, M_bind at 1; cbv beta iota;
         rewrite Hh by done; reflexivity).
  unfold request_get, mbind at 1, M_bind at 1, mret at 1, M_ret at 1.
  fold (code_field items). fold (log [StdinReadline line] w).
  unfold mbind at 1, M_bind at 1.
  destruct (execute_code (code_field items) context (log [StdinReadline line] w))
    as [[response|e|] w1] eqn:Hrun.
  - destruct (execute_code_frame _ _ _ _ _ Hrun) as [_ Hs].
    destruct Hs as [Hs _]; [done |]. simpl in Hs.
    rewrite Hout in Hs.
    unfold mbind, M_bind, sys_stdout_write, sys_stdout_flush.
    rewrite Hs; simpl; rewrite Hs; simpl.
    unfold log, set_trace; simpl. by rewrite <- (assoc_L (++)).
  - destruct (execute_code_frame _ _ _ _ _ Hrun) as [_ Hs].
    destruct Hs as [_ Hs]; [done |]. apply Hh. by rewrite Hs.
  - reflexivity.
Qed.
Lemma main_loop_nil (context : nat) w :
  main_loop [] context w = (Ret EndOfStream, log [StdinReadline ""] w).
Proof. reflexivity. Qed.

Lemma main_loop_cons (line : string) (rest : list string) (context : nat) w :
  main_loop (line :: rest) context w =
  match iteration line context w with
  | (Ret Continue, w') => main_loop rest context w'
  | (Ret (Break how), w') => (Ret how, w')
  | (Raise e, w') => (Raise e, w')
  | (Hang, w') => (Hang, w')
  end.
Proof.
  simpl. unfold mbind, M_bind.
  destruct (iteration line context w) as [[[|how]|e|] w']; reflexivity.
Qed.

(** A request that [execute_code] answers: the response goes out, is
    flushed, and the loop is back at [readline]. *)
Lemma main_loop_answer (line : string) (items : list (string * PyObj))
    (rest : list string) (context : nat) w (response : Response) w1 :
  line ≠ "" → streams_real w →
  json_loads line = inl (PDict items) →
  execute_code (code_field items) context (log [StdinReadline line] w)
    = (Ret response, w1) →
  streams_real w1 ∧
  main_loop (line :: rest) context w =
  main_loop rest context
    (log [StdoutWrite (json_dumps response +:+ nl); StdoutFlush] w1).
Proof.
  intros Hline Hreal Hjson Hrun. split.
  - destruct (execute_code_frame _ _ _ _ _ Hrun) as [_ Hs].
    destruct Hs as [Ho He]; [done |]. destruct Hreal as [Ho' He'].
    split; [by rewrite Ho | by rewrite He].
  - rewrite main_loop_cons, iteration_run by done.
    cbv zeta. by rewrite Hjson, Hrun.
Qed.

(** A line that the decoder refuses with [JSONDecodeError]. *)
Lemma main_loop_skip (line : string) (rest : list string) (context : nat) w e :
  line ≠ "" → streams_real w →
  json_loads line = inr e → isinstance e "JSONDecodeError" = true →
  main_loop (line :: rest) context w =
  main_loop rest context (log [StdinReadline line] w).
Proof.
  intros Hline Hreal Hjson He.
  rewrite main_loop_cons, iteration_run by done.
  cbv zeta. rewrite Hjson. unfold loop_handlers. by rewrite He.
Qed.


(** C3: when the executed code raises after it has printed, the
    response that [execute_code] returns has in [stdout] and [stderr]
    all that the code wrote before it stopped, and the traceback in
    [error].  In MiniPy the request
    [print('a'); raise ValueError('boom')] is answered with [stdout] the
    line [a] and an [error] that contains [boom]. *)
Theorem partial_output_is_kept :
  (∀ (text : string) (c : Code) (context : nat) w (e : PyExc)
     (response : Response) w',
     let r := eval_code c (with_builtins (w_dicts w !!! context)) in
     compile_source text = inl c →
     ex_outcome r = Raised e →
     execute_code (PStr text) context w = (Ret response, w') →
     stdout response = ex_stdout r ∧ stderr response = ex_stderr r ∧
     error response = Some (format_exc e)) ∧
  (∃ traceback : string,
     w_trace (main (R := MiniPy.runtime)
                (MiniPy.request_line "print('a'); raise ValueError('boom')")
                init_world).2
     = [StdinReadline (MiniPy.request_line "print('a'); raise ValueError('boom')");
        StdoutWrite (json_dumps (mkResponse ("a" +:+ nl) "" (Some traceback)) +:+ nl);
        StdoutFlush;
        StdinReadline ""] ∧
     contains "boom" traceback = true).
Proof.
  split.
  - intros text c context w e response w' r Hc Ho.
    rewrite execute_code_run. simpl. rewrite Hc. cbv zeta. fold r. rewrite Ho.
    destruct (isinstance e "Exception"); [| done].
    by intros [= <- _].
  - exists (format_exc (MiniPy.raised 1 "ValueError" "boom")).
    split; vm_compute; reflexivity.
Qed.


(** A request whose code does not compile: the failure is answered, and
    the loop goes on with the dicts as they were. *)
Lemma main_loop_compile_failure (line : string) (items : list (string * PyObj))
    (e : PyExc) (rest : list string) (context : nat) w :
  line ≠ "" → streams_real w →
  json_loads line = inl (PDict items) →
  compile (code_field items) = inr e →
  ∃ w',
    main_loop (line :: rest) context w = main_loop rest context w' ∧
    streams_real w' ∧ w_dicts w' = w_dicts w ∧
    w_trace w' = w_trace w ++
      [StdinReadline line;
       StdoutWrite (json_dumps (compile_failure e) +:+ nl);
       StdoutFlush].
Proof.
  intros Hline Hreal Hjson Hc.
  destruct (main_loop_answer line items rest context w (compile_failure e)
              (after_call "" "" (log [StdinReadline line] w)))
    as [Hreal' ->]; try done.
  { rewrite execute_code_run. by rewrite Hc. }
  eexists. split; [reflexivity |]. split; [exact Hreal' |].
  split; [reflexivity |]. simpl. by rewrite <- (assoc_L (++)).
Qed.


(** C10: a [code] that is present and is not text (a number, a list, an
    object, [true], [null]) makes [compile] raise TypeError; the call
    answers it with empty [stdout] and [stderr] and the traceback in
    [error], nothing leaves the loop, and the next line is read.  In
    MiniPy the line [{"code": 5}] is answered, and so is the request
    after it. *)
Theorem code_that_is_not_text_is_answered :
  (∀ (line : string) (items : list (string * PyObj)) (code : PyObj)
     (rest : list string) (context : nat) w,
     line ≠ "" → streams_real w →
     json_loads line = inl (PDict items) →
     dict_lookup items "code" = Some code →
     (∀ text, code ≠ PStr text) →
     ∃ (traceback : string) w1 w',
       execute_code code context (log [StdinReadline line] w)
         = (Ret (mkResponse "" "" (Some traceback)), w1) ∧
       main_loop (line :: rest) context w = main_loop rest context w' ∧
       streams_real w' ∧ w_dicts w' = w_dicts w ∧
       w_trace w' = w_trace w ++
         [StdinReadline line;
          StdoutWrite (json_dumps (mkResponse "" "" (Some traceback)) +:+ nl);
          StdoutFlush]) ∧
  (∃ traceback : string,
     (main (R := MiniPy.runtime)
        ("{" +:+ quoted "code" +:+ ": 5}" +:+ nl +:+ MiniPy.request_line "print(1)")
        init_world).1 = Ret EndOfStream ∧
     w_trace (main (R := MiniPy.runtime)
                ("{" +:+ quoted "code" +:+ ": 5}" +:+ nl +:+
                 MiniPy.request_line "print(1)") init_world).2
     = [StdinReadline ("{" +:+ quoted "code" +:+ ": 5}" +:+ nl);
        StdoutWrite (json_dumps (mkResponse "" "" (Some traceback)) +:+ nl);
        StdoutFlush;
        StdinReadline (MiniPy.request_line "print(1)");
        StdoutWrite (json_dumps (mkResponse ("1" +:+ nl) "" None) +:+ nl);
        StdoutFlush;
        StdinReadline ""] ∧
     contains "TypeError" traceback = true).
Proof.
  split.
  - intros line items code rest context w Hline Hreal Hjson Hcode Hnot.
    set (e := TypeError "compile() arg 1 must be a string, bytes or AST object").
    assert (Hfield : code_field items = code) by (unfold code_field; by rewrite Hcode).
    assert (Hc : compile code = inr e) by (destruct code; try reflexivity; by destruct (Hnot s)).
    exists (format_exc e), (after_call "" "" (log [StdinReadline line] w)).
    destruct (main_loop_compile_failure line items e rest context w)
      as (w' & Hloop & Hreal' & Hdicts & Htrace); try done; [by rewrite Hfield |].
    exists w'. split; [| done].
    rewrite execute_code_run. by rewrite Hc.
  - exists (format_exc (TypeError "compile() arg 1 must be a string, bytes or AST object")).
    repeat split; vm_compute; reflexivity.
Qed.

Lemma with_builtins_keeps g (name : string) (v : Value) :
  g !! name = Some v → with_builtins g !! name = Some v.
Proof.
  intros Hg. unfold with_builtins.
  destruct (g !! "__builtins__") eqn:Hb; [done |].
  rewrite lookup_insert_ne; [done | congruence].
Qed.

Lemma with_builtins_other g (name : string) :
  name ≠ "__builtins__" → with_builtins g !! name = g !! name.
Proof.
  intros Hname. unfold with_builtins.
  destruct (g !! "__builtins__"); [done |]. by rewrite lookup_insert_ne.
Qed.

Lemma with_builtins_present g :
  is_Some (g !! "__builtins__") → with_builtins g = g.
Proof. intros [v Hv]. unfold with_builtins. by rewrite Hv. Qed.

(** A request whose code compiles and whose run is answered. *)
Lemma main_loop_run_request (line : string) (items : list (string * PyObj))
    (c : Code) (rest : list string) (context : nat) w g :
  line ≠ "" → streams_real w → w_dicts w !! context = Some g →
  json_loads line = inl (PDict items) →
  compile (code_field items) = inl c →
  let r := eval_code c (with_builtins g) in
  answered (ex_outcome r) →
  ∃ w',
    main_loop (line :: rest) context w = main_loop rest context w' ∧
    streams_real w' ∧
    w_dicts w' = <[context := ex_globals r]> (w_dicts w) ∧
    w_trace w' = w_trace w ++
      [StdinReadline line;
       StdoutWrite (json_dumps (response_of r) +:+ nl);
       StdoutFlush].
Proof.
  intros Hline Hreal Hg Hjson Hc r Hans.
  pose (w1 := set_dicts (<[context := ex_globals r]> (w_dicts w))
                (after_call (ex_stdout r) (ex_stderr r) (log [StdinReadline line] w))).
  destruct (main_loop_answer line items rest context w (response_of r) w1)
    as [Hreal' ->]; try done.
  { rewrite execute_code_run, Hc. cbv zeta. simpl w_dicts.
    rewrite (list_lookup_total_correct _ _ _ Hg). fold r. fold w1.
    unfold response_of. unfold answered in Hans.
    destruct (ex_outcome r) as [|e|]; [done | by rewrite Hans | done]. }
  eexists. split; [reflexivity |]. split; [exact Hreal' |].
  split; [reflexivity |]. simpl. by rewrite <- (assoc_L (++)).
Qed.

(** C1: two requests in a row run in one namespace.  Whether the run of
    the first returned or raised, every name that it left bound is bound
    to the same value where the code of the second is evaluated: the
    second response is that of the second code run in the namespace the
    first run left, and the dict holds the bindings of both afterwards.
    In MiniPy, [x = 1] followed by [print(x)] is answered the second
    time with [stdout] the line [1], empty [stderr] and no [error]; the
    same holds when the first request raises after the assignment. *)
Theorem names_persist_between_requests :
  (∀ (l1 l2 : string) (items1 items2 : list (string * PyObj)) (c1 c2 : Code)
     (context : nat) w g,
     l1 ≠ "" → l2 ≠ "" → streams_real w → w_dicts w !! context = Some g →
     json_loads l1 = inl (PDict items1) → json_loads l2 = inl (PDict items2) →
     compile (code_field items1) = inl c1 →
     compile (code_field items2) = inl c2 →
     let r1 := eval_code c1 (with_builtins g) in
     let r2 := eval_code c2 (with_builtins (ex_globals r1)) in
     answered (ex_outcome r1) → answered (ex_outcome r2) →
     (∀ name v, ex_globals r1 !! name = Some v →
                with_builtins (ex_globals r1) !! name = Some v) ∧
     ∃ w',
       main_loop [l1; l2] context w = (Ret EndOfStream, w') ∧
       w_trace w' = w_trace w ++
         [StdinReadline l1;
          StdoutWrite (json_dumps (response_of r1) +:+ nl);
          StdoutFlush;
          StdinReadline l2;
          StdoutWrite (json_dumps (response_of r2) +:+ nl);
          StdoutFlush;
          StdinReadline ""] ∧
       w_dicts w' !! context = Some (ex_globals r2)) ∧
  w_trace (main (R := MiniPy.runtime)
             (MiniPy.request_line "x = 1" +:+ MiniPy.request_line "print(x)")
             init_world).2
  = [StdinReadline (MiniPy.request_line "x = 1");
     StdoutWrite (json_dumps (mkResponse "" "" None) +:+ nl);
     StdoutFlush;
     StdinReadline (MiniPy.request_line "print(x)");
     StdoutWrite (json_dumps (mkResponse ("1" +:+ nl) "" None) +:+ nl);
     StdoutFlush;
     StdinReadline ""] ∧
  (∃ traceback : string,
     w_trace (main (R := MiniPy.runtime)
                (MiniPy.request_line "x = 1; raise ValueError('boom')" +:+
                 MiniPy.request_line "print(x)") init_world).2
     = [StdinReadline (MiniPy.request_line "x = 1; raise ValueError('boom')");
        StdoutWrite (json_dumps (mkResponse "" "" (Some traceback)) +:+ nl);
        StdoutFlush;
        StdinReadline (MiniPy.request_line "print(x)");
        StdoutWrite (json_dumps (mkResponse ("1" +:+ nl) "" None) +:+ nl);
        StdoutFlush;
        StdinReadline ""]).
Proof.
  split; [| split].
  - intros l1 l2 items1 items2 c1 c2 context w g Hl1 Hl2 Hreal Hg Hj1 Hj2 Hc1 Hc2
      r1 r2 Ha1 Ha2.
    split; [intros name v; apply with_builtins_keeps |].
    destruct (main_loop_run_request l1 items1 c1 [l2] context w g)
      as (w1 & -> & Hreal1 & Hd1 & Ht1); try done.
    assert (Hg1 : w_dicts w1 !! context = Some (ex_globals r1)).
    { rewrite Hd1. apply list_lookup_insert_eq. by eapply lookup_lt_Some. }
    destruct (main_loop_run_request l2 items2 c2 [] context w1 (ex_globals r1))
      as (w2 & -> & Hreal2 & Hd2 & Ht2); try done.
    rewrite main_loop_nil. eexists. split; [reflexivity |]. split.
    + simpl. rewrite Ht2, Ht1. by rewrite <- !(assoc_L (++)).
    + simpl. rewrite Hd2. apply list_lookup_insert_eq. by eapply lookup_lt_Some.
  - vm_compute. reflexivity.
  - exists (format_exc (MiniPy.raised 1 "ValueError" "boom")).
    vm_compute. reflexivity.
Qed.

(** C6, as the code has it: a request whose [code] is absent or is the
    empty text is answered with empty [stdout] and [stderr] and no
    [error]; in the dict behind [context] every name other than
    [__builtins__] keeps its binding, [__builtins__] is added when the
    dict has none, and a dict that has one is left as it was.  In MiniPy,
    after [x = 1], an empty [code] and a request without [code] are
    answered so, and [print(x)] after them still prints [1]. *)
Theorem empty_code_only_adds_builtins :
  (∀ (items : list (string * PyObj)) (context : nat) w g,
     dict_lookup items "code" = None ∨ dict_lookup items "code" = Some (PStr "") →
     w_dicts w !! context = Some g →
     ∃ w',
       execute_code (code_field items) context w = (Ret (mkResponse "" "" None), w') ∧
       w_trace w' = w_trace w ∧
       w_dicts w' = <[context := with_builtins g]> (w_dicts w) ∧
       (∀ name, name ≠ "__builtins__" → with_builtins g !! name = g !! name) ∧
       (is_Some (g !! "__builtins__") → w_dicts w' = w_dicts w)) ∧
  w_trace (main (R := MiniPy.runtime)
             (MiniPy.request_line "x = 1" +:+ MiniPy.request_line "" +:+
              "{}" +:+ nl +:+ MiniPy.request_line "print(x)") init_world).2
  = [StdinReadline (MiniPy.request_line "x = 1");
     StdoutWrite (json_dumps (mkResponse "" "" None) +:+ nl);
     StdoutFlush;
     StdinReadline (MiniPy.request_line "");
     StdoutWrite (json_dumps (mkResponse "" "" None) +:+ nl);
     StdoutFlush;
     StdinReadline ("{}" +:+ nl);
     StdoutWrite (json_dumps (mkResponse "" "" None) +:+ nl);
     StdoutFlush;
     StdinReadline (MiniPy.request_line "print(x)");
     StdoutWrite (json_dumps (mkResponse ("1" +:+ nl) "" None) +:+ nl);
     StdoutFlush;
     StdinReadline ""].
Proof.
  split; [| vm_compute; reflexivity].
  intros items context w g Hcode Hg.
  assert (Hfield : code_field items = PStr "").
  { unfold code_field. by destruct Hcode as [-> | ->]. }
  destruct compile_source_empty as (c & Hc & Hrun).
  rewrite Hfield, execute_code_run. simpl compile. rewrite Hc. cbv zeta.
  rewrite Hrun. simpl. rewrite (list_lookup_total_correct _ _ _ Hg).
  eexists. split; [reflexivity |]. split; [reflexivity |].
  split; [reflexivity |]. split; [intros name; apply with_builtins_other |].
  intros Hb. simpl. rewrite with_builtins_present by done.
  by apply list_insert_id.
Qed.

Lemma loop_handlers_cases (e : PyExc) w (r : Res Flow) w' :
  loop_handlers e w = (r, w') →
  match r with
  | Ret Continue => w' = w
  | Ret (Break how) =>
      how = FatalError ∧ isinstance e "Exception" = true ∧
      w' = log [StderrWrite ("Fatal Kernel Error: " +:+ exc_str e +:+ nl)] w
  | Raise e' => e' = e ∧ isinstance e "Exception" = false ∧ w' = w
  | Hang => False
  end.
Proof.
  unfold loop_handlers.
  destruct (isinstance e "JSONDecodeError"); [by intros [= <- <-] |].
  destruct (isinstance e "Exception") eqn:He; by intros [= <- <-].
Qed.

(** The ways one pass of the loop over a line can end. *)
Lemma iteration_cases (line : string) (context : nat) w (r : Res Flow) w' :
  line ≠ "" → streams_real w →
  iteration line context w = (r, w') →
  match r with
  | Ret Continue =>
      streams_real w' ∧
      ∃ out, w_trace w' = w_trace w ++ StdinReadline line :: out ∧
             (out = [] ∨
              ∃ response, out = [StdoutWrite (json_dumps response +:+ nl); StdoutFlush])
  | Ret (Break how) =>
      how = FatalError ∧
      ∃ message, w_trace w' = w_trace w ++
        [StdinReadline line; StderrWrite ("Fatal Kernel Error: " +:+ message +:+ nl)]
  | Raise e =>
      isinstance e "Exception" = false ∧ w_trace w' = w_trace w ++ [StdinReadline line]
  | Hang => w_trace w' = w_trace w ++ [StdinReadline line]
  end.
Proof.
  intros Hline Hreal. rewrite iteration_run by done. cbv zeta.
  destruct (json_loads line) as [request|e].
  - destruct request as [|b|n|lit|s|l|items];
      try (intros [= <- <-]; split; [reflexivity |]; eexists; simpl;
           by rewrite <- (assoc_L (++))).
    destruct (execute_code (code_field items) context (log [StdinReadline line] w))
      as [[response|e|] w1] eqn:Hrun;
      destruct (execute_code_frame _ _ _ _ _ Hrun) as [Htrace Hstreams].
    + intros [= <- <-]. destruct Hstreams as [Ho He]; [done |].
      split; [destruct Hreal; simpl in Ho, He; split; simpl; congruence |].
      eexists. split; [| right; eauto]. simpl. rewrite Htrace. simpl.
      by rewrite <- (assoc_L (++)).
    + intros Hh. apply loop_handlers_cases in Hh.
      destruct r as [[|how]|e'|].
      * subst w'. destruct Hstreams as [Ho He]; [done |].
        split; [destruct Hreal; simpl in Ho, He; split; simpl; congruence |].
        exists []. split; [by rewrite Htrace | by left].
      * destruct Hh as (_ & He & _).
        by rewrite (execute_code_never_raises_Exception _ _ _ _ _ Hrun) in He.
      * destruct Hh as (-> & He & ->). by rewrite Htrace.
      * done.
    + by intros [= <- <-].
  - intros Hh. apply loop_handlers_cases in Hh.
    destruct r as [[|how]|e'|].
    + subst w'. split; [done |]. exists []. split; [done | by left].
    + destruct Hh as (-> & _ & ->). split; [done |]. eexists. simpl.
      by rewrite <- (assoc_L (++)).
    + by destruct Hh as (-> & He & ->).
    + done.
Qed.

Lemma split_lines_from_nonempty (current input : string) :
  Forall (λ line, line ≠ "") (split_lines_from current input).
Proof.
  revert current. induction input as [|c rest IH]; intros current; simpl.
  - destruct (decide (current = "")); [constructor | by repeat constructor].
  - destruct (decide (c = "010"%char)); [| apply IH].
    constructor; [| apply IH]. by destruct current.
Qed.

Lemma split_lines_nonempty (input : string) :
  Forall (λ line, line ≠ "") (split_lines input).
Proof. apply split_lines_from_nonempty. Qed.

(** How the loop can end, and what was read and written by then. *)
Lemma main_loop_endings (lines : list string) (context : nat) w
    (r : Res LoopExit) w' :
  Forall (λ line, line ≠ "") lines → streams_real w →
  main_loop lines context w = (r, w') →
  ∃ events, w_trace w' = w_trace w ++ events ∧
    match r with
    | Ret EndOfStream => reads events = lines ++ [""] ∧ stderr_writes events = []
    | Ret FatalError =>
        reads events `prefix_of` lines ∧
        ∃ before message,
          events = before ++ [StderrWrite ("Fatal Kernel Error: " +:+ message +:+ nl)]
    | Raise e => reads events `prefix_of` lines ∧ isinstance e "Exception" = false
    | Hang => reads events `prefix_of` lines
    end.
Proof.
  intros Hlines. revert w. induction Hlines as [|line rest Hline Hrest IH];
    intros w Hreal.
  - rewrite main_loop_nil. intros [= <- <-]. by exists [StdinReadline ""].
  - rewrite main_loop_cons.
    destruct (iteration line context w) as [r0 w0] eqn:Hit.
    pose proof (iteration_cases _ _ _ _ _ Hline Hreal Hit) as Hcases.
    destruct r0 as [[|how]|e|].
    + destruct Hcases as (Hreal0 & out & Htrace & Hout). intros Hloop.
      destruct (IH _ Hreal0 Hloop) as (events & Htrace' & Hr).
      exists (StdinReadline line :: out ++ events). split.
      { rewrite Htrace', Htrace. by rewrite <- (assoc_L (++)). }
      assert (Hreads : reads (StdinReadline line :: out ++ events) = line :: reads events).
      { unfold reads. simpl. rewrite omap_app.
        by destruct Hout as [-> | [response ->]]. }
      assert (Herrs : stderr_writes (StdinReadline line :: out ++ events)
                      = stderr_writes events).
      { unfold stderr_writes. simpl. rewrite omap_app.
        by destruct Hout as [-> | [response ->]]. }
      rewrite Hreads, Herrs.
      destruct r as [[|]|e|].
      * destruct Hr as [-> ->]. done.
      * destruct Hr as (Hpre & before & message & ->). split; [by apply prefix_cons |].
        exists (StdinReadline line :: out ++ before), message.
        by rewrite (assoc_L (++)).
      * destruct Hr as [Hpre He]. split; [by apply prefix_cons | done].
      * by apply prefix_cons.
    + destruct Hcases as (-> & message & Htrace). intros [= <- <-].
      eexists. split; [exact Htrace |]. split.
      * exists rest. reflexivity.
      * by exists [StdinReadline line], message.
    + destruct Hcases as [He Htrace]. intros [= <- <-].
      eexists. split; [exact Htrace |]. split; [| done]. by exists rest.
    + intros [= <- <-]. eexists. split; [exact Hcases |]. by exists rest.
Qed.


Lemma contains_nl_cons (c : ascii) (s : string) :
  contains nl (String c s) = bool_decide ("010"%char = c) || contains nl s.
Proof. unfold nl. cbn [contains starts_with]. rewrite andb_true_r. reflexivity. Qed.

Lemma contains_nl_app (a b : string) :
  contains nl (a +:+ b) = contains nl a || contains nl b.
Proof.
  induction a as [|c a IH].
  - by destruct b.
  - change (String c a +:+ b) with (String c (a +:+ b)).
    rewrite !contains_nl_cons, IH. by rewrite orb_assoc.
Qed.

Lemma escape_char_one_line (c : ascii) : contains nl (escape_char c) = false.
Proof. destruct c as [[] [] [] [] [] [] [] []]; reflexivity. Qed.

Lemma escape_string_one_line (s : string) : contains nl (escape_string s) = false.
Proof.
  induction s as [|c s IH]; [reflexivity |].
  simpl escape_string. by rewrite contains_nl_app, escape_char_one_line, IH.
Qed.

Lemma encode_str_one_line (s : string) : contains nl (encode_str s) = false.
Proof.
  unfold encode_str, quoted.
  by rewrite !contains_nl_app, escape_string_one_line.
Qed.

(** The encoding of a response has no line break in it: with the break
    that [main] appends, it is one line. *)
Lemma json_dumps_one_line (r : Response) : contains nl (json_dumps r) = false.
Proof.
  unfold json_dumps. rewrite !contains_nl_app, !encode_str_one_line.
  destruct (error r) as [text|]; [by rewrite encode_str_one_line | reflexivity].
Qed.

Lemma answers_length (codes : list PyObj) g :
  length (answers codes g) = length codes.
Proof.
  revert g. induction codes as [|code rest IH]; intros g; [reflexivity |].
  simpl. destruct (compile code); simpl; by rewrite IH.
Qed.

(** A session in which every request is answered. *)
Lemma main_loop_session (lines : list string) (codes : list PyObj)
    (context : nat) w g :
  streams_real w → w_dicts w !! context = Some g →
  Forall2 requests lines codes →
  all_answered codes g →
  ∃ w',
    main_loop lines context w = (Ret EndOfStream, w') ∧
    w_trace w' = w_trace w ++ exchanges lines (answers codes g) ++ [StdinReadline ""].
Proof.
  intros Hreal Hg Hreq. revert w g Hreal Hg.
  induction Hreq as [|line code lines codes (Hline & items & Hjson & Hcode) Hrest IH];
    intros w g Hreal Hg Hans.
  - rewrite main_loop_nil. eexists. split; [reflexivity | done].
  - simpl in Hans. simpl answers.
    destruct (compile code) as [c|e] eqn:Hc.
    + destruct Hans as [Hans Hans'].
      destruct (main_loop_run_request line items c lines context w g)
        as (w1 & -> & Hreal1 & Hd1 & Ht1); try done; [by rewrite Hcode |].
      destruct (IH w1 (ex_globals (eval_code c (with_builtins g)))) as (w' & -> & Ht');
        try done.
      { rewrite Hd1. apply list_lookup_insert_eq. by eapply lookup_lt_Some. }
      eexists. split; [reflexivity |]. rewrite Ht', Ht1.
      unfold exchanges. simpl. by rewrite <- !(assoc_L (++)).
    + destruct (main_loop_compile_failure line items e lines context w)
        as (w1 & -> & Hreal1 & Hd1 & Ht1); try done; [by rewrite Hcode |].
      destruct (IH w1 g) as (w' & -> & Ht'); try done; [by rewrite Hd1 |].
      eexists. split; [reflexivity |]. rewrite Ht', Ht1.
      unfold exchanges. simpl. by rewrite <- !(assoc_L (++)).
Qed.



Lemma set_trace_set_trace (t t' : list Event) w :
  set_trace t (set_trace t' w) = set_trace t w.
Proof. reflexivity. Qed.

(** [execute_code] neither reads nor extends the record of the traffic. *)
Lemma execute_code_retrace (code : PyObj) (context : nat) w (t : list Event) :
  execute_code code context (set_trace t w) =
  ((execute_code code context w).1, set_trace t (execute_code code context w).2).
Proof.
  rewrite !execute_code_run.
  destruct (compile code) as [c|e]; [| reflexivity]. cbv zeta.
  change (w_dicts (set_trace t w)) with (w_dicts w).
  destruct (ex_outcome _) as [|e|]; [| destruct (isinstance e "Exception") |];
    reflexivity.
Qed.

Lemma loop_handlers_retrace (e : PyExc) w (t1 : list Event) :
  ∃ out,
    w_trace (loop_handlers e (set_trace t1 w)).2 = t1 ++ out ∧
    outputs out = out ∧
    ∀ t2, loop_handlers e (set_trace t2 w) =
          ((loop_handlers e (set_trace t1 w)).1,
           set_trace (t2 ++ out) (loop_handlers e (set_trace t1 w)).2).
Proof.
  unfold loop_handlers.
  destruct (isinstance e "JSONDecodeError").
  - exists []. split; [by rewrite app_nil_r |]. split; [done |].
    intros t2. by rewrite app_nil_r.
  - destruct (isinstance e "Exception").
    + eexists [_]. split; [reflexivity |]. split; reflexivity.
    + exists []. split; [by rewrite app_nil_r |]. split; [done |].
      intros t2. by rewrite app_nil_r.
Qed.

(** One pass of the loop does not look at the record of the traffic: it
    adds the read of its line and what it puts out. *)
Lemma iteration_retrace (line : string) (context : nat) w (t : list Event) :
  line ≠ "" → streams_real w →
  ∃ out,
    w_trace (iteration line context w).2 = w_trace w ++ StdinReadline line :: out ∧
    outputs out = out ∧
    iteration line context (set_trace t w) =
    ((iteration line context w).1,
     set_trace (t ++ StdinReadline line :: out) (iteration line context w).2).
Proof.
  intros Hline Hreal.
  rewrite !iteration_run by done. cbv zeta. unfold log.
  change (w_trace (set_trace t w)) with t.
  rewrite !set_trace_set_trace.
  destruct (json_loads line) as [request|e].
  - destruct request as [|b|n|lit|s|l|items];
      try (eexists [_]; split; [cbn; by rewrite <- (assoc_L (++)) |];
           split; [reflexivity |]; cbn; by rewrite <- !(assoc_L (++))).
    rewrite !execute_code_retrace.
    destruct (execute_code (code_field items) context w) as [[response|e|] w1];
      cbn [fst snd].
    + eexists [_; _]. split; [cbn; by rewrite <- (assoc_L (++)) |].
      split; [reflexivity |]. cbn. by rewrite <- !(assoc_L (++)).
    + destruct (loop_handlers_retrace e w1 (w_trace w ++ [StdinReadline line]))
        as (out & H1 & H2 & H3).
      exists out. rewrite (H3 (t ++ [StdinReadline line])).
      split; [rewrite H1; by rewrite <- (assoc_L (++)) |].
      split; [done |]. by rewrite <- !(assoc_L (++)).
    + exists []. split; [reflexivity |]. split; reflexivity.
  - destruct (loop_handlers_retrace e w (w_trace w ++ [StdinReadline line]))
      as (out & H1 & H2 & H3).
    exists out. rewrite (H3 (t ++ [StdinReadline line])).
    split; [rewrite H1; by rewrite <- (assoc_L (++)) |].
    split; [done |]. by rewrite <- !(assoc_L (++)).
Qed.

(** Nor does the loop as a whole. *)
Lemma main_loop_retrace (lines : list string) (context : nat) w (t : list Event) :
  Forall (λ line, line ≠ "") lines → streams_real w →
  ∃ events,
    w_trace (main_loop lines context w).2 = w_trace w ++ events ∧
    main_loop lines context (set_trace t w) =
    ((main_loop lines context w).1,
     set_trace (t ++ events) (main_loop lines context w).2).
Proof.
  intros Hlines. revert w t.
  induction Hlines as [|line rest Hline Hrest IH]; intros w t Hreal.
  - rewrite !main_loop_nil. exists [StdinReadline ""]. split; reflexivity.
  - rewrite !main_loop_cons.
    destruct (iteration_retrace line context w t Hline Hreal)
      as (out & Htrace & _ & ->).
    destruct (iteration line context w) as [r0 w0] eqn:Hit.
    pose proof (iteration_cases _ _ _ _ _ Hline Hreal Hit) as Hcases.
    cbn [fst snd] in *.
    destruct r0 as [[|how]|e|];
      try (exists (StdinReadline line :: out); split; [exact Htrace | reflexivity]).
    destruct Hcases as [Hreal0 _].
    destruct (IH w0 (t ++ StdinReadline line :: out) Hreal0) as (events & Htrace' & ->).
    exists (StdinReadline line :: out ++ events). split.
    + rewrite Htrace', Htrace. by rewrite <- (assoc_L (++)).
    + by rewrite <- (assoc_L (++)).
Qed.

(** C4, as the code has it: a line on which [json.loads] raises
    [JSONDecodeError] is passed over.  Nothing is written to either real
    stream and the loop is at [readline] again, with the rest of the
    input; taking such a line out of the input changes neither how the
    run ends, nor what the process puts out, nor any dict.  In MiniPy
    the line [garbage] before a request leaves no mark other than its
    read. *)
Theorem undecodable_line_is_skipped :
  (∀ (line : string) (rest : list string) (context : nat) w (e : PyExc),
     line ≠ "" → streams_real w →
     json_loads line = inr e → isinstance e "JSONDecodeError" = true →
     main_loop (line :: rest) context w =
     main_loop rest context (log [StdinReadline line] w)) ∧
  (∀ (before : list string) (line : string) (after : list string)
     (context : nat) w (e : PyExc),
     Forall (λ l, l ≠ "") (before ++ line :: after) → streams_real w →
     json_loads line = inr e → isinstance e "JSONDecodeError" = true →
     (main_loop (before ++ line :: after) context w).1
       = (main_loop (before ++ after) context w).1 ∧
     outputs (w_trace (main_loop (before ++ line :: after) context w).2)
       = outputs (w_trace (main_loop (before ++ after) context w).2) ∧
     w_dicts (main_loop (before ++ line :: after) context w).2
       = w_dicts (main_loop (before ++ after) context w).2) ∧
  w_trace (main (R := MiniPy.runtime)
             ("garbage" +:+ nl +:+ MiniPy.request_line "print(1)") init_world).2
  = [StdinReadline ("garbage" +:+ nl);
     StdinReadline (MiniPy.request_line "print(1)");
     StdoutWrite (json_dumps (mkResponse ("1" +:+ nl) "" None) +:+ nl);
     StdoutFlush;
     StdinReadline ""].
Proof.
  split; [| split].
  - intros line rest context w e. apply main_loop_skip.
  - intros before line after context w e Hlines Hreal Hjson He.
    revert w Hreal. induction before as [|x before IH]; intros w Hreal.
    + apply Forall_cons in Hlines as [Hline Hafter]. cbn [app].
      rewrite (main_loop_skip line after context w e) by done. unfold log.
      destruct (main_loop_retrace after context w (w_trace w ++ [StdinReadline line]))
        as (events & Htrace & ->); [done | done |].
      cbn [fst snd]. split; [reflexivity |]. split; [| reflexivity].
      change (w_trace (set_trace ?t _)) with t. rewrite Htrace.
      unfold outputs. rewrite !omap_app.
      change (omap _ [StdinReadline line]) with (@nil Event).
      by rewrite app_nil_r.
    + apply Forall_cons in Hlines as [Hx Hlines]. cbn [app].
      rewrite !main_loop_cons.
      destruct (iteration x context w) as [r0 w0] eqn:Hit.
      pose proof (iteration_cases _ _ _ _ _ Hx Hreal Hit) as Hcases.
      destruct r0 as [[|how]|e0|]; try done.
      destruct Hcases as [Hreal0 _]. by apply IH.
  - vm_compute. reflexivity.
Qed.

End Facts.

(** ** Runs of the kernel on MiniPy *)

Section Runs.
Import MiniPy.


(** C4: the lines [5] and [[1, 2]] are JSON texts and no request
    objects.  Neither is skipped: the fatal handler writes a diagnostic
    to the error stream and the loop ends, with the request that follows
    never read. *)
Lemma line_that_is_no_object_is_fatal :
  decode ("5" +:+ nl) = inl (PInt 5) ∧
  main ("5" +:+ nl +:+ request_line "print(1)") init_world
    = (Ret FatalError,
       set_trace
         [StdinReadline ("5" +:+ nl);
          StderrWrite ("Fatal Kernel Error: 'int' object has no attribute 'get'" +:+ nl)]
         started) ∧
  decode ("[1, 2]" +:+ nl) = inl (PList [PInt 1; PInt 2]) ∧
  main ("[1, 2]" +:+ nl +:+ request_line "print(1)") init_world
    = (Ret FatalError,
       set_trace
         [StdinReadline ("[1, 2]" +:+ nl);
          StderrWrite ("Fatal Kernel Error: 'list' object has no attribute 'get'" +:+ nl)]
         started).
Proof. repeat split; reflexivity. Qed.

(** C6: the first request of a process with empty [code].  The dict
    behind [context] is empty when the loop is entered; after the
    request it has an entry [__builtins__]. *)
Lemma empty_code_mutates_fresh_context :
  w_dicts started = [∅] ∧
  decode (request_line "") = inl (PDict [("code", PStr "")]) ∧
  (main (request_line "") init_world).1 = Ret EndOfStream ∧
  w_trace (main (request_line "") init_world).2
    = [StdinReadline (request_line "");
       StdoutWrite (json_dumps (mkResponse "" "" None) +:+ nl);
       StdoutFlush;
       StdinReadline ""] ∧
  (w_dicts (main (request_line "") init_world).2 !!! 0) !! "__builtins__"
    = Some VBuiltins.
Proof. repeat split; vm_compute; reflexivity. Qed.


(** *** The general statements at concrete requests *)

Lemma started_streams_real : streams_real started.
Proof. split; reflexivity. Qed.

Lemma request_line_nonempty (code : string) : request_line code ≠ "".
Proof. discriminate. Qed.

Lemma names_persist_between_requests_witness :
  let r1 := run_code [(1, SAssign "x" (EInt 1))] (with_builtins ∅) in
  let r2 := run_code [(1, SPrint (Some (EVar "x")))] (with_builtins (ex_globals r1)) in
  ∃ w',
    main_loop [request_line "x = 1"; request_line "print(x)"] 0 started
      = (Ret EndOfStream, w') ∧
    w_trace w' = w_trace started ++
      [StdinReadline (request_line "x = 1");
       StdoutWrite (json_dumps (response_of r1) +:+ nl);
       StdoutFlush;
       StdinReadline (request_line "print(x)");
       StdoutWrite (json_dumps (response_of r2) +:+ nl);
       StdoutFlush;
       StdinReadline ""] ∧
    w_dicts w' !! 0 = Some (ex_globals r2).
Proof.
  refine (proj2 (proj1 names_persist_between_requests
    (request_line "x = 1") (request_line "print(x)")
    [("code", PStr "x = 1")] [("code", PStr "print(x)")]
    [(1, SAssign "x" (EInt 1))] [(1, SPrint (Some (EVar "x")))]
    0 started ∅ _ _ started_streams_real _ _ _ _ _ _ _));
    try apply request_line_nonempty; try reflexivity; vm_compute; exact I.
Defined.


Lemma partial_output_is_kept_witness :
  ∃ response,
    (execute_code (PStr "print('a'); raise ValueError('boom')") 0 started).1
      = Ret response ∧
    stdout response = "a" +:+ nl ∧ stderr response = "" ∧
    error response = Some (format_exc (raised 1 "ValueError" "boom")).
Proof.
  exists (mkResponse ("a" +:+ nl) "" (Some (format_exc (raised 1 "ValueError" "boom")))).
  split; [vm_compute; reflexivity |].
  refine (proj1 (partial_output_is_kept (R := runtime))
    "print('a'); raise ValueError('boom')"
    [(1, SPrint (Some (EStr "a"))); (1, SRaise "ValueError" (Some (EStr "boom")))]
    0 started (raised 1 "ValueError" "boom") _
    (execute_code (PStr "print('a'); raise ValueError('boom')") 0 started).2 _ _ _);
    reflexivity.
Defined.

Lemma undecodable_line_is_skipped_witness :
  main_loop ["garbage" +:+ nl; request_line "print(1)"] 0 started
  = main_loop [request_line "print(1)"] 0
      (log [StdinReadline ("garbage" +:+ nl)] started).
Proof.
  refine (proj1 (undecodable_line_is_skipped (R := runtime))
    ("garbage" +:+ nl) [request_line "print(1)"] 0 started
    (JSONDecodeError "Expecting value") _ started_streams_real _ _);
    [discriminate | reflexivity | reflexivity].
Defined.


Lemma empty_code_only_adds_builtins_witness :
  ∃ w',
    execute_code (code_field []) 0 started = (Ret (mkResponse "" "" None), w') ∧
    w_trace w' = w_trace started ∧
    w_dicts w' = <[0 := with_builtins ∅]> (w_dicts started) ∧
    (∀ name, name ≠ "__builtins__" →
             with_builtins (∅ : gmap string Val) !! name = (∅ : gmap string Val) !! name) ∧
    (is_Some ((∅ : gmap string Val) !! "__builtins__") → w_dicts w' = w_dicts started).
Proof.
  refine (proj1 (empty_code_only_adds_builtins (R := runtime)) [] 0 started ∅ _ _);
    [left; reflexivity | reflexivity].
Defined.



Lemma code_that_is_not_text_is_answered_witness :
  ∃ (traceback : string) w1 w',
    execute_code (PInt 5) 0
      (log [StdinReadline ("{" +:+ quoted "code" +:+ ": 5}" +:+ nl)] started)
      = (Ret (mkResponse "" "" (Some traceback)), w1) ∧
    main_loop [("{" +:+ quoted "code" +:+ ": 5}" +:+ nl)] 0 started
      = main_loop [] 0 w' ∧
    streams_real w' ∧ w_dicts w' = w_dicts started ∧
    w_trace w' = w_trace started ++
      [StdinReadline ("{" +:+ quoted "code" +:+ ": 5}" +:+ nl);
       StdoutWrite (json_dumps (mkResponse "" "" (Some traceback)) +:+ nl);
       StdoutFlush].
Proof.
  refine (proj1 (code_that_is_not_text_is_answered (R := runtime))
    ("{" +:+ quoted "code" +:+ ": 5}" +:+ nl) [("code", PInt 5)] (PInt 5) [] 0 started
    _ started_streams_real _ _ _);
    [discriminate | reflexivity | reflexivity | discriminate].
Defined.

End Runs.

(** ** The shape of a run *)

(** The texts written to the real output stream. *)
Definition stdout_writes (events : list Event) : list string :=
  omap (λ ev, match ev with StdoutWrite text => Some text | _ => None end) events.

(** The traffic of one pass of the loop that ends in [continue]: the
    read of a line that is passed over, or the exchange for a request. *)
Inductive pass_events : list Event → Prop :=
  | pass_skipped (line : string) : pass_events [StdinReadline line]
  | pass_served (line : string) (response : Response) :
      pass_events (exchange line response).

(** The traffic of the pass in which the loop is left, by the way it is
    left. *)
Definition last_pass_events (r : Res LoopExit) (events : list Event) : Prop :=
  match r with
  | Ret EndOfStream => events = [StdinReadline ""]
  | Ret FatalError =>
      ∃ line message,
        events = [StdinReadline line;
                  StderrWrite ("Fatal Kernel Error: " +:+ message +:+ nl)]
  | Raise _ | Hang => ∃ line, events = [StdinReadline line]
  end.

Lemma append_cons (c : ascii) (s t : string) : String c s +:+ t = String c (s +:+ t).
Proof. reflexivity. Qed.

Lemma append_empty (t : string) : "" +:+ t = t.
Proof. reflexivity. Qed.

Lemma append_assoc (a b c : string) : (a +:+ b) +:+ c = a +:+ (b +:+ c).
Proof. induction a as [|x a IH]; [reflexivity |]. by rewrite !append_cons, IH. Qed.

Section Shape.
Context {R : PyRuntime}.
Implicit Types (w : World) (g : gmap string Value).

Lemma main_loop_shape (lines : list string) (context : nat) w
    (r : Res LoopExit) w' :
  Forall (λ line, line ≠ "") lines → streams_real w →
  main_loop lines context w = (r, w') →
  ∃ passes ending,
    w_trace w' = w_trace w ++ concat passes ++ ending ∧
    Forall pass_events passes ∧ last_pass_events r ending.
Proof.
  intros Hlines. revert w. induction Hlines as [|line rest Hline Hrest IH];
    intros w Hreal.
  - rewrite main_loop_nil. intros [= <- <-]. by exists [], [StdinReadline ""].
  - rewrite main_loop_cons.
    destruct (iteration line context w) as [r0 w0] eqn:Hit.
    pose proof (iteration_cases _ _ _ _ _ Hline Hreal Hit) as Hcases.
    destruct r0 as [[|how]|e|].
    + destruct Hcases as (Hreal0 & out & Htrace & Hout). intros Hloop.
      destruct (IH _ Hreal0 Hloop) as (passes & ending & Htrace' & Hpasses & Hend).
      exists ((StdinReadline line :: out) :: passes), ending. split; [| split].
      * rewrite Htrace', Htrace. cbn [concat]. by rewrite <- !(assoc_L (++)).
      * constructor; [| done].
        destruct Hout as [-> | [response ->]]; constructor.
      * done.
    + destruct Hcases as (-> & message & Htrace). intros [= <- <-].
      exists [], [StdinReadline line;
                  StderrWrite ("Fatal Kernel Error: " +:+ message +:+ nl)].
      split; [exact Htrace |]. split; [constructor | by exists line, message].
    + destruct Hcases as [He Htrace]. intros [= <- <-].
      exists [], [StdinReadline line]. split; [exact Htrace |].
      split; [constructor | by exists line].
    + intros [= <- <-]. exists [], [StdinReadline line].
      split; [exact Hcases |]. split; [constructor | by exists line].
Qed.

Lemma started_streams_real_any : streams_real started.
Proof. split; reflexivity. Qed.

Lemma main_starts (input : string) :
  main input init_world = main_loop (split_lines input) 0 started.
Proof. reflexivity. Qed.


Lemma passes_stdout (passes : list (list Event)) :
  Forall pass_events passes →
  Forall (λ text, ∃ response, text = json_dumps response +:+ nl ∧
                              contains nl (json_dumps response) = false)
    (stdout_writes (concat passes)) ∧
  stderr_writes (concat passes) = [].
Proof.
  induction 1 as [|pass passes Hpass Hpasses [IHout IHerr]]; [by split |].
  cbn [concat]. unfold stdout_writes, stderr_writes in *. rewrite !omap_app.
  destruct Hpass as [line | line response]; cbn [omap list_omap exchange app].
  - by split.
  - split; [| done]. constructor; [| done].
    exists response. split; [done | apply json_dumps_one_line].
Qed.





Lemma iteration_dicts_length (line : string) (context : nat) w (r : Res Flow) w' :
  line ≠ "" → streams_real w →
  iteration line context w = (r, w') →
  length (w_dicts w') = length (w_dicts w).
Proof.
  intros Hline Hreal. rewrite iteration_run by done. cbv zeta.
  assert (Hh : ∀ e w1 r1 w1', loop_handlers e w1 = (r1, w1') →
                              w_dicts w1' = w_dicts w1).
  { intros e w1 r1 w1'. unfold loop_handlers.
    destruct (isinstance e "JSONDecodeError"); [by intros [= <- <-] |].
    destruct (isinstance e "Exception"); by intros [= <- <-]. }
  destruct (json_loads line) as [request|e].
  - destruct request as [|b|n|lit|s|l|items]; try by intros [= <- <-].
    rewrite execute_code_run.
    destruct (compile (code_field items)) as [c|e]; cbv zeta.
    + destruct (ex_outcome _) as [|e|]; [| destruct (isinstance e "Exception") |].
      * intros [= <- <-]. cbn. by rewrite length_insert.
      * intros [= <- <-]. cbn. by rewrite length_insert.
      * intros Hl. apply Hh in Hl. rewrite Hl. cbn. by rewrite length_insert.
      * intros [= <- <-]. cbn. by rewrite length_insert.
    + by intros [= <- <-].
  - intros Hl. apply Hh in Hl. by rewrite Hl.
Qed.

Lemma main_loop_dicts_length (lines : list string) (context : nat) w
    (r : Res LoopExit) w' :
  Forall (λ line, line ≠ "") lines → streams_real w →
  main_loop lines context w = (r, w') →
  length (w_dicts w') = length (w_dicts w).
Proof.
  intros Hlines. revert w. induction Hlines as [|line rest Hline Hrest IH];
    intros w Hreal.
  - rewrite main_loop_nil. by intros [= <- <-].
  - rewrite main_loop_cons.
    destruct (iteration line context w) as [r0 w0] eqn:Hit.
    pose proof (iteration_dicts_length _ _ _ _ _ Hline Hreal Hit) as Hlen.
    pose proof (iteration_cases _ _ _ _ _ Hline Hreal Hit) as Hcases.
    destruct r0 as [[|how]|e|]; try (intros [= <- <-]; exact Hlen).
    destruct Hcases as [Hreal0 _]. intros Hloop.
    rewrite (IH _ Hreal0 Hloop). exact Hlen.
Qed.


(** The lines put back together. *)
Definition join (lines : list string) : string := foldr String.append "" lines.

Lemma join_split_lines_from (current input : string) :
  join (split_lines_from current input) = current +:+ input.
Proof.
  revert current. induction input as [|c rest IH]; intros current.
  - cbn [split_lines_from]. destruct (decide (current = "")) as [-> | _]; reflexivity.
  - cbn [split_lines_from]. destruct (decide (c = "010"%char)) as [-> | _].
    + cbn [join foldr]. fold (join (split_lines_from "" rest)). rewrite IH.
      by rewrite append_assoc.
    + rewrite IH. by rewrite append_assoc.
Qed.


(** X9: a line that is a JSON text and no object ends the loop: its read is
    followed by the diagnostic of the fatal handler, which names the
    type of the decoded value, and whatever comes after the line is
    never read. *)
Theorem value_that_is_no_object_ends_the_loop
    (line : string) (request : PyObj) (rest : list string) (context : nat) w :
  line ≠ "" → streams_real w →
  json_loads line = inl request →
  (∀ items, request ≠ PDict items) →
  main_loop (line :: rest) context w
  = (Ret FatalError,
     log [StdinReadline line;
          StderrWrite ("Fatal Kernel Error: " +:+
                       ("'" +:+ type_name request +:+ "' object has no attribute 'get'")
                       +:+ nl)] w).
Proof.
  intros Hline Hreal Hjson Hnot.
  rewrite main_loop_cons, iteration_run by done. cbv zeta. rewrite Hjson.
  destruct request as [|b|n|lit|s|l|items]; try (by destruct (Hnot items));
    unfold log; cbn; by rewrite <- (assoc_L (++)).
Qed.



End Shape.

(** ** Response lines as JSON *)

Section ResponseLines.
Import MiniPy.

(** What the encoder makes of one character, the decoder reads back as
    that character. *)
Lemma scan_escaped_char (c : ascii) (encoded text rest : string) :
  scan_string encoded = Some (text, rest) →
  scan_string (escape_char c +:+ encoded) = Some (String c text, rest).
Proof.
  intros H.
  destruct c as [[] [] [] [] [] [] [] []];
    match goal with
    | |- context [escape_char ?c] =>
        let e := eval vm_compute in (escape_char c) in
        change (escape_char c) with e
    end;
    rewrite ?append_cons, append_empty; simpl; rewrite H; reflexivity.
Qed.

Lemma scan_escaped_string (s rest : string) :
  scan_string (escape_string s +:+ String "034"%char rest) = Some (s, rest).
Proof.
  induction s as [|c s IH]; [reflexivity |].
  cbn [escape_string]. rewrite append_assoc. by apply scan_escaped_char.
Qed.

Lemma parse_encoded_str (fuel : nat) (s rest : string) :
  parse_value (S fuel) (encode_str s +:+ rest) = Some (PStr s, rest).
Proof.
  unfold encode_str, quoted, dquote.
  rewrite !append_assoc, !append_cons, !append_empty.
  simpl. by rewrite scan_escaped_string.
Qed.

Lemma encode_str_head (s rest : string) :
  encode_str s +:+ rest = String "034"%char (escape_string s +:+ String "034"%char rest).
Proof.
  unfold encode_str, quoted, dquote.
  by rewrite !append_assoc, !append_cons, !append_empty.
Qed.

Lemma skip_ws_encoded (s rest : string) :
  skip_ws (encode_str s +:+ rest) = encode_str s +:+ rest.
Proof. rewrite encode_str_head. reflexivity. Qed.

Lemma parse_object (fuel : nat) (key members : string)
    (items : list (string * PyObj)) (rest : string) :
  parse_members fuel (encode_str key +:+ members) = Some (items, rest) →
  parse_value (S fuel) ("{" +:+ encode_str key +:+ members) = Some (PDict items, rest).
Proof.
  rewrite append_cons, append_empty, encode_str_head. intros H.
  simpl. by rewrite H.
Qed.

Lemma parse_last_member (fuel : nat) (key value : string) (v : PyObj) (rest : string) :
  skip_ws value = value →
  parse_value fuel value = Some (v, "}" +:+ rest) →
  parse_members (S fuel) (encode_str key +:+ ": " +:+ value) = Some ([(key, v)], rest).
Proof.
  intros Hws H. rewrite encode_str_head, !append_cons, append_empty.
  simpl. rewrite scan_escaped_string. simpl. rewrite Hws, H. reflexivity.
Qed.

Lemma parse_member (fuel : nat) (key value : string) (v : PyObj)
    (next others : string) (more : list (string * PyObj)) (rest : string) :
  skip_ws value = value →
  parse_value fuel value = Some (v, ", " +:+ encode_str next +:+ others) →
  parse_members fuel (encode_str next +:+ others) = Some (more, rest) →
  parse_members (S fuel) (encode_str key +:+ ": " +:+ value)
  = Some ((key, v) :: more, rest).
Proof.
  intros Hws H Hmore. rewrite encode_str_head, !append_cons, append_empty.
  simpl. rewrite scan_escaped_string. simpl. rewrite Hws, H.
  rewrite !append_cons, append_empty. simpl.
  change (String _ ((_ +:+ escape_string next +:+ dquote) +:+ others))
    with (encode_str next +:+ others).
  rewrite Hmore. reflexivity.
Qed.

(** The object that a response line stands for. *)
Definition response_object (r : Response) : PyObj :=
  PDict [("stdout", PStr (stdout r)); ("stderr", PStr (stderr r));
         ("error", match error r with None => PNone | Some text => PStr text end)].

Lemma parse_response (fuel : nat) (r : Response) (rest : string) :
  parse_value (S (S (S (S (S fuel))))) (json_dumps r +:+ rest)
  = Some (response_object r, rest).
Proof.
  unfold json_dumps, response_object.
  change (quoted "stdout") with (encode_str "stdout").
  change (quoted "stderr") with (encode_str "stderr").
  change (quoted "error") with (encode_str "error").
  rewrite !append_assoc.
  apply parse_object.
  eapply parse_member; [apply skip_ws_encoded | apply parse_encoded_str |].
  eapply parse_member; [apply skip_ws_encoded | apply parse_encoded_str |].
  destruct (error r) as [text|].
  - apply parse_last_member; [apply skip_ws_encoded | apply parse_encoded_str].
  - apply parse_last_member; reflexivity.
Qed.

Lemma json_dumps_head (r : Response) (rest : string) :
  ∃ tail, json_dumps r +:+ rest = String "{"%char (String "034"%char tail).
Proof.
  unfold json_dumps, quoted, dquote.
  rewrite !append_assoc, !append_cons, !append_empty. eauto.
Qed.


End ResponseLines.

(** ** The further statements at concrete requests *)

Section MoreRuns.
Import MiniPy.





Lemma value_that_is_no_object_ends_the_loop_witness :
  main_loop ["5" +:+ nl; request_line "print(1)"] 0 started
  = (Ret FatalError,
     log [StdinReadline ("5" +:+ nl);
          StderrWrite ("Fatal Kernel Error: " +:+
                       ("'" +:+ type_name (PInt 5) +:+ "' object has no attribute 'get'")
                       +:+ nl)] started).
Proof.
  refine (value_that_is_no_object_ends_the_loop (R := runtime)
            ("5" +:+ nl) (PInt 5) [request_line "print(1)"] 0 started
            _ started_streams_real _ _);
    [discriminate | reflexivity | discriminate].
Defined.



End MoreRuns.
